(** * Tutorial notebooks and experiment configuration of the Ray guidebook

    The repository holds three hyperparameter-tuning notebooks (Nevergrad,
    SigOpt, BayesOpt), one data-processing notebook (NYC taxi data) and one
    YAML experiment file.  A notebook is a sequence of code cells executed
    against one global namespace; every cell is embedded as a computation in
    a state-and-exception monad over that namespace.  Calls into the
    libraries (ray, nevergrad, sigopt, numpy, pandas, pyarrow) are not
    interpreted: each one is recorded in a trace and returns a symbolic
    term, and it may raise, as decided by the outside world.  Python floats
    are modelled by exact rationals. *)

From Stdlib Require Import QArith Lqa.
From stdpp Require Import gmap strings list.

Open Scope string_scope.
Set Warnings "-register-all".

(** ** Values *)

(** The comparison used by a row-filtering lambda of the data notebook. *)
Inductive Cmp := CmpLe | CmpGt.

(** [lambda df: df[df[col] <cmp> bound]]. *)
Inductive Udf := RowFilter (col : string) (c : Cmp) (bound : Z).

(** Python values.  Besides the literals, a value is a library object
    ([VExt], named by its dotted path), a built-in, a function or class a
    cell defines ([VDef], named by the cell and the function), a lambda of
    the data notebook, or a term built from library objects that the model
    does not interpret: an attribute, the result of a call, an element of
    an unpacked result, the result of an operator. *)
Inductive Value :=
| VNone
| VBool (b : bool)
| VInt (z : Z)
| VNum (q : Q)
| VStr (s : string)
| VList (l : list Value)
| VTuple (l : list Value)
| VDict (d : list (string * Value))
| VExt (path : string)
| VBuiltin (x : string)
| VDef (cell x : string)
| VLambda (u : Udf)
| VAttr (v : Value) (a : string)
| VRet (f : Value) (args : list Value) (kw : list (string * Value))
| VItem (v : Value) (i : nat)
| VOp (op : string) (l : list Value).

(** Exceptions.  [Raised cls msg] is an exception a [raise] statement of
    a notebook constructs; [ExternalError f] is whatever the library call
    [f] raised. *)
Inductive Exn :=
| NameError (x : string)
| KeyError (k : string)
| TypeError (msg : string)
| ZeroDivisionError
| ValueError (msg : string)
| ModuleNotFoundError (m : string)
| Raised (cls msg : string)
| ExternalError (f : Value).

(** What a run leaves outside the namespace, in order: shell commands,
    imports, calls of library objects, iterations over library objects,
    sleeps, and the exceptions raised. *)
Inductive Event :=
| EShell (cmd : string)
| EImport (m : string)
| ECall (f : Value) (args : list Value) (kw : list (string * Value))
| EIter (it : Value)
| ESleep (secs : Q)
| ERaise (e : Exn).

(** ** The monad *)

(** The state of a kernel: the global namespace, [os.environ] and the
    trace. *)
Record State := mkState {
  ns : gmap string Value;
  environ : gmap string string;
  trace : list Event
}.

(** What the notebook does not control: the environment the kernel
    starts with, which of the effects raise (by position in the trace), and
    how many elements an iteration over a library object yields. *)
Record World := mkWorld {
  env0 : gmap string string;
  raises : nat → bool;
  iter_len : nat → nat
}.

Inductive Outcome (A : Type) :=
| Ok (a : A)
| Raise (e : Exn).
Arguments Ok {A} a.
Arguments Raise {A} e.

Definition M (A : Type) : Type := World → State → Outcome A * State.

Definition ret {A} (a : A) : M A := fun _ s => (Ok a, s).

Definition bind {A B} (m : M A) (f : A → M B) : M B :=
  fun w s =>
    match m w s with
    | (Ok a, s') => f a w s'
    | (Raise e, s') => (Raise e, s')
    end.

Declare Scope py_scope.
Delimit Scope py_scope with py.
Notation "x <- m ;; k" := (bind m (fun x => k))
  (at level 100, m at next level, right associativity) : py_scope.
Notation "m ;;; k" := (bind m (fun _ => k))
  (at level 100, right associativity) : py_scope.
Open Scope py_scope.

Definition emit (ev : Event) (s : State) : State :=
  mkState (ns s) (environ s) (trace s ++ [ev]).

Definition set_name (x : string) (v : Value) (s : State) : State :=
  mkState (<[x:=v]> (ns s)) (environ s) (trace s).

Definition unset_name (x : string) (s : State) : State :=
  mkState (delete x (ns s)) (environ s) (trace s).

Definition set_env (k v : string) (s : State) : State :=
  mkState (ns s) (<[k:=v]> (environ s)) (trace s).

(** An exception leaves the computation; it is recorded in the trace. *)
Definition throw {A} (e : Exn) : M A :=
  fun _ s => (Raise e, emit (ERaise e) s).

(** An effect outside the notebook: it is recorded, and the world decides
    whether it raises. *)
Definition effect {A} (ev : Event) (e : Exn) (a : A) : M A :=
  fun w s =>
    if raises w (length (trace s))
    then (Raise e, emit (ERaise e) (emit ev s))
    else (Ok a, emit ev s).

Definition store (x : string) (v : Value) : M unit :=
  fun _ s => (Ok tt, set_name x v s).

(** [os.environ]: membership, lookup and update of an environment
    variable. *)
Definition env_has (k : string) : M bool :=
  fun _ s => (Ok (bool_decide (is_Some (environ s !! k))), s).

Definition env_get (k : string) : M string :=
  fun w s =>
    match environ s !! k with
    | Some v => (Ok v, s)
    | None => throw (KeyError k) w s
    end.

Definition env_set (k v : string) : M unit :=
  fun _ s => (Ok tt, set_env k v s).

(** The number of items a library iterator yields is decided by the
    world. *)
Definition iter_count : M nat :=
  fun w s => (Ok (iter_len w (length (trace s))), s).

Fixpoint sequence {A} (ms : list (M A)) : M (list A) :=
  match ms with
  | [] => ret []
  | m :: ms' => a <- m ;; l <- sequence ms' ;; ret (a :: l)
  end.

Fixpoint sequence_kw {A} (ms : list (string * M A)) : M (list (string * A)) :=
  match ms with
  | [] => ret []
  | (k, m) :: ms' => a <- m ;; l <- sequence_kw ms' ;; ret ((k, a) :: l)
  end.

(** ** Names *)

(** The names Python and IPython resolve when the notebook namespace has no
    binding: the built-in functions, the built-in exception classes and
    the names the interactive shell adds. *)
Definition builtin_functions : list string :=
  ["abs"; "all"; "any"; "ascii"; "bin"; "bool"; "breakpoint"; "bytearray";
   "bytes"; "callable"; "chr"; "classmethod"; "compile"; "complex";
   "delattr"; "dict"; "dir"; "divmod"; "enumerate"; "eval"; "exec";
   "filter"; "float"; "format"; "frozenset"; "getattr"; "globals";
   "hasattr"; "hash"; "help"; "hex"; "id"; "input"; "int"; "isinstance";
   "issubclass"; "iter"; "len"; "list"; "locals"; "map"; "max";
   "memoryview"; "min"; "next"; "object"; "oct"; "open"; "ord"; "pow";
   "print"; "property"; "range"; "repr"; "reversed"; "round"; "set";
   "setattr"; "slice"; "sorted"; "staticmethod"; "str"; "sum"; "super";
   "tuple"; "type"; "vars"; "zip"; "__import__";
   "get_ipython"; "display"; "exit"; "quit"; "In"; "Out"].

Definition builtin_exceptions : list string :=
  ["BaseException"; "Exception"; "ArithmeticError"; "AssertionError";
   "AttributeError"; "BlockingIOError"; "BrokenPipeError"; "BufferError";
   "BytesWarning"; "ChildProcessError"; "ConnectionAbortedError";
   "ConnectionError"; "ConnectionRefusedError"; "ConnectionResetError";
   "DeprecationWarning"; "EOFError"; "EnvironmentError";
   "FileExistsError"; "FileNotFoundError"; "FloatingPointError";
   "FutureWarning"; "GeneratorExit"; "IOError"; "ImportError";
   "ImportWarning"; "IndentationError"; "IndexError"; "InterruptedError";
   "IsADirectoryError"; "KeyError"; "KeyboardInterrupt"; "LookupError";
   "MemoryError"; "ModuleNotFoundError"; "NameError";
   "NotADirectoryError"; "NotImplementedError"; "OSError";
   "OverflowError"; "PendingDeprecationWarning"; "PermissionError";
   "ProcessLookupError"; "RecursionError"; "ReferenceError";
   "ResourceWarning"; "RuntimeError"; "RuntimeWarning";
   "StopAsyncIteration"; "StopIteration"; "SyntaxError"; "SyntaxWarning";
   "SystemError"; "SystemExit"; "TabError"; "TimeoutError"; "TypeError";
   "UnboundLocalError"; "UnicodeDecodeError"; "UnicodeEncodeError";
   "UnicodeError"; "UnicodeTranslateError"; "UnicodeWarning";
   "UserWarning"; "ValueError"; "Warning"; "ZeroDivisionError"].

Definition mem (x : string) (l : list string) : bool :=
  existsb (String.eqb x) l.

Definition is_builtin (x : string) : bool :=
  mem x builtin_functions || mem x builtin_exceptions.

(** Loading a name: the notebook namespace first, then the built-ins. *)
Definition name (x : string) : M Value :=
  fun w s =>
    match ns s !! x with
    | Some v => (Ok v, s)
    | None =>
        if is_builtin x then (Ok (VBuiltin x), s) else throw (NameError x) w s
    end.

Definition del (x : string) : M unit :=
  fun w s =>
    match ns s !! x with
    | Some _ => (Ok tt, unset_name x s)
    | None => throw (NameError x) w s
    end.

(** ** Expressions *)

Definition int (z : Z) : M Value := ret (VInt z).
Definition num (q : Q) : M Value := ret (VNum q).
Definition str (s : string) : M Value := ret (VStr s).
Definition true_ : M Value := ret (VBool true).
Definition lambda (u : Udf) : M Value := ret (VLambda u).

Definition list_ (ms : list (M Value)) : M Value :=
  l <- sequence ms ;; ret (VList l).

Definition dict_ (ms : list (string * M Value)) : M Value :=
  d <- sequence_kw ms ;; ret (VDict d).

(** Attribute access.  An attribute of a library module or class is the
    library object of the longer qualified name; an attribute of any other
    value stays symbolic. *)
Definition getattr (v : Value) (a : string) : Value :=
  match v with
  | VExt p => VExt (p +:+ "." +:+ a)
  | _ => VAttr v a
  end.

Definition attr (e : M Value) (a : string) : M Value :=
  v <- e ;; ret (getattr v a).

Notation "e $. a" := (attr e a) (at level 25, left associativity) : py_scope.

Definition kw_lookup (k : string) (kw : list (string * Value)) : option Value :=
  snd <$> List.find (fun p => String.eqb (fst p) k) kw.

Definition is_method (f : Value) (x : string) : bool :=
  match f with VAttr _ y => String.eqb y x | _ => false end.

Definition range_list (n : Z) : list Value :=
  map (fun i => VInt (Z.of_nat i)) (seq 0 (Z.to_nat n)).

Fixpoint zip_values (a b : list Value) : list Value :=
  match a, b with
  | x :: a', y :: b' => VTuple [x; y] :: zip_values a' b'
  | _, _ => []
  end.

(** Modelled from the spec: the library's [Dataset.split] is not among the
    sources.  A split into [n] shards returns a list of [n] datasets; any
    other library call returns an uninterpreted term. *)
Definition returned (f : Value) (args : list Value)
    (kw : list (string * Value)) : Value :=
  let r := VRet f args kw in
  if is_method f "split" then
    match kw_lookup "n" kw with
    | Some (VInt n) => VList (map (VItem r) (seq 0 (Z.to_nat n)))
    | _ => r
    end
  else r.

(** A call.  [len], [range], [zip] and [dict] on concrete arguments and the
    construction of a built-in exception are computed; every other call is
    an effect whose result is [returned]. *)
Definition builtin_call (f : Value) (args : list Value)
    (kw : list (string * Value)) : option Value :=
  match f with
  | VBuiltin x =>
      if mem x builtin_exceptions then Some (VRet f args kw)
      else if String.eqb x "dict" then
        match args with [] => Some (VDict kw) | _ => None end
      else if String.eqb x "len" then
        match args, kw with
        | [VList l], [] => Some (VInt (Z.of_nat (length l)))
        | _, _ => None
        end
      else if String.eqb x "range" then
        match args, kw with
        | [VInt n], [] => Some (VList (range_list n))
        | _, _ => None
        end
      else if String.eqb x "zip" then
        match args, kw with
        | [VList a; VList b], [] => Some (VList (zip_values a b))
        | _, _ => None
        end
      else None
  | _ => None
  end.

Definition apply (f : Value) (args : list Value)
    (kw : list (string * Value)) : M Value :=
  match builtin_call f args kw with
  | Some v => ret v
  | None => effect (ECall f args kw) (ExternalError f) (returned f args kw)
  end.

(** [f(a1, ..., k1=b1, ...)]: callee first, then the arguments from left
    to right, then the call. *)
Definition call (f : M Value) (args : list (M Value))
    (kw : list (string * M Value)) : M Value :=
  fv <- f ;; avs <- sequence args ;; kvs <- sequence_kw kw ;;
  apply fv avs kvs.

(** Arithmetic and comparison operators: computed on numbers (as
    rationals), symbolic on library objects. *)
Definition num_of (v : Value) : option Q :=
  match v with
  | VInt z => Some (inject_Z z)
  | VNum q => Some q
  | _ => None
  end.

(** A binary operator.  On two numbers the arithmetic and the two
    comparisons the notebooks use are computed (over the rationals);
    anything else, in particular an operator applied to a library object,
    stays a symbolic term. *)
Definition operate (op : string) (a b : Value) : M Value :=
  match num_of a, num_of b with
  | Some x, Some y =>
      if String.eqb op "/" then
        if Qeq_bool y 0 then throw ZeroDivisionError else ret (VNum (x / y))
      else if String.eqb op "+" then ret (VNum (x + y))
      else if String.eqb op "-" then ret (VNum (x - y))
      else if String.eqb op "*" then ret (VNum (x * y))
      else if String.eqb op ">" then ret (VBool (negb (Qle_bool x y)))
      else if String.eqb op "<=" then ret (VBool (Qle_bool x y))
      else ret (VOp op [a; b])
  | _, _ => ret (VOp op [a; b])
  end.

Definition binop (op : string) (e1 e2 : M Value) : M Value :=
  a <- e1 ;; b <- e2 ;; operate op a b.

Definition is_environ (v : Value) : bool :=
  match v with VExt p => String.eqb p "os.environ" | _ => false end.

(** [k not in c]. *)
Definition not_in (ek ec : M Value) : M Value :=
  k <- ek ;; c <- ec ;;
  match k with
  | VStr key =>
      if is_environ c then b <- env_has key ;; ret (VBool (negb b))
      else ret (VOp "not in" [k; c])
  | _ => ret (VOp "not in" [k; c])
  end.

(** [c[k]]. *)
Definition subscript (ec ek : M Value) : M Value :=
  c <- ec ;; k <- ek ;;
  match k with
  | VStr key =>
      if is_environ c then v <- env_get key ;; ret (VStr v)
      else apply (VAttr c "__getitem__") [k] []
  | _ => apply (VAttr c "__getitem__") [k] []
  end.

(** ** Statements *)

Definition Cell : Type := M unit.

Definition assign (x : string) (e : M Value) : M unit :=
  v <- e ;; store x v.

Definition expr (e : M Value) : M unit :=
  _ <- e ;; ret tt.

(** [c[k] = v]: the value first, then the container and the key. *)
Definition setitem (ec ek ev : M Value) : M unit :=
  v <- ev ;; c <- ec ;; k <- ek ;;
  match k, v with
  | VStr key, VStr val =>
      if is_environ c then env_set key val
      else expr (apply (VAttr c "__setitem__") [k; v] [])
  | _, _ => expr (apply (VAttr c "__setitem__") [k; v] [])
  end.

(** The truth value of a condition. *)
Definition truthy (v : Value) : bool :=
  match v with
  | VNone => false
  | VBool b => b
  | VInt z => negb (z =? 0)%Z
  | VNum q => negb (Qeq_bool q 0)
  | VStr s => negb (String.eqb s EmptyString)
  | VList l | VTuple l => match l with [] => false | _ => true end
  | VDict d => match d with [] => false | _ => true end
  | _ => true
  end.

Definition if_ (c : M Value) (t e : M unit) : M unit :=
  v <- c ;; if truthy v then t else e.

Definition pass : M unit := ret tt.

(** [raise e]. *)
Definition raise (e : M Value) : M unit :=
  v <- e ;;
  match v with
  | VRet (VBuiltin cls) [VStr msg] [] => throw (Raised cls msg)
  | _ => throw (TypeError "exceptions must derive from BaseException")
  end.

(** [import m as x] and [from m import x]. *)
Definition import_as (m x : string) : M unit :=
  effect (EImport m) (ModuleNotFoundError m) tt ;;; store x (VExt m).

Definition import (m : string) : M unit := import_as m m.

Definition from_import (m x : string) : M unit :=
  effect (EImport m) (ModuleNotFoundError m) tt ;;;
  store x (VExt (m +:+ "." +:+ x)).

(** [!cmd]: a shell escape of the interactive shell. *)
Definition shell (cmd : string) : M unit :=
  fun _ s => (Ok tt, emit (EShell cmd) s).

(** [def x ...] or [class x ...] in the cell of the given id binds the name
    to the function or class defined there. *)
Definition def (cell x : string) : M unit :=
  store x (VDef cell x).

(** Iteration.  A concrete list is traversed; a library object yields as
    many items as the world decides. *)
Definition items (v : Value) : M (list Value) :=
  match v with
  | VList l | VTuple l => ret l
  | _ =>
      n <- iter_count ;;
      effect (EIter v) (ExternalError v) (map (VItem v) (seq 0 n))
  end.

Definition comprehension (it : M Value) (body : Value → M Value) : M Value :=
  v <- it ;; l <- items v ;; r <- sequence (map body l) ;; ret (VList r).

Definition unpack2 (v : Value) : M (Value * Value) :=
  match v with
  | VTuple [a; b] | VList [a; b] => ret (a, b)
  | _ => throw (ValueError "not enough values to unpack")
  end.

(** ** Running a notebook *)

Definition init (w : World) : State := mkState ∅ (env0 w) [].

(** Cell by cell, in order; a cell that raises stops there and the next
    cell starts from the state it left. *)
Fixpoint run_cells (cells : list Cell) (w : World) (s : State) : State :=
  match cells with
  | [] => s
  | c :: cs => run_cells cs w (snd (c w s))
  end.

(** "Run all": in order, stopping at the first cell that raises. *)
Fixpoint run_all (cells : list Cell) : M unit :=
  match cells with
  | [] => ret tt
  | c :: cs => c ;;; run_all cs
  end.

(** The world in which no library call raises, with the given environment
    variables; library iterators yield [n] items. *)
Definition calm (env : gmap string string) (n : nat) : World :=
  mkWorld env (fun _ => false) (fun _ => n).

(** ** Helpers of the functions the notebooks define *)

(** [time.sleep(secs)] with a constant, non-negative argument only delays. *)
Definition sleep (secs : Q) : M unit :=
  fun _ s => (Ok tt, emit (ESleep secs) s).

(** [v == "s"]. *)
Definition eq_str (v : Value) (s : string) : bool :=
  match v with VStr s' => String.eqb s' s | _ => false end.

(** [b ** e] for an integer exponent: a zero base cannot be raised to a
    negative power. *)
Definition pow (b : Q) (e : Z) : M Q :=
  if Qeq_bool b 0 && (e <? 0)%Z then throw ZeroDivisionError
  else ret (b ^ e)%Q.

(** [config[k]] on a dictionary. *)
Definition getitem (config : list (string * Value)) (k : string) : M Value :=
  match kw_lookup k config with
  | Some v => ret v
  | None => throw (KeyError k)
  end.

(** The value as the integer [range] takes, and as the number the
    arithmetic of [evaluate] takes; another kind of value is a
    [TypeError]. *)
Definition as_int (v : Value) : M Z :=
  match v with
  | VInt z => ret z
  | _ => throw (TypeError "an integer is required")
  end.

Definition as_num (v : Value) : M Q :=
  match num_of v with
  | Some q => ret q
  | None => throw (TypeError "a number is required")
  end.

Fixpoint for_each {A} (l : list A) (body : A → M unit) : M unit :=
  match l with
  | [] => ret tt
  | a :: l' => body a ;;; for_each l' body
  end.

(** [for i in range(n): body]. *)
Definition for_range (n : Z) (body : Z → M unit) : M unit :=
  for_each (map Z.of_nat (seq 0 (Z.to_nat n))) body.

(** [session.report(metrics)]. *)
Definition report (metrics : list (string * Value)) : M unit :=
  expr (apply (VExt "ray.air.session.report") [VDict metrics] []).

(** ** The Nevergrad notebook *)

Module Nevergrad.

Definition evaluate (step : Z) (width height : Q) (activation : Value) : M Q :=
  sleep 0.1 ;;;
  let activation_boost := (if eq_str activation "relu" then 10 else 1)%Q in
  r <- pow (0.1 + width * inject_Z step / 100) (-1) ;;
  ret (r + height * 0.1 + activation_boost)%Q.

Definition objective (config : list (string * Value)) : M unit :=
  steps <- getitem config "steps" ;;
  n <- as_int steps ;;
  for_range n (fun step =>
    w <- getitem config "width" ;;
    h <- getitem config "height" ;;
    activation <- getitem config "activation" ;;
    width <- as_num w ;;
    height <- as_num h ;;
    score <- evaluate step width height activation ;;
    report [("iterations", VInt step); ("mean_loss", VNum score)]).

Definition cell_5ab54f85 : Cell :=
  shell "pip install nevergrad==0.4.3.post7 ".

Definition cell_1f6d7a31 : Cell :=
  import "time" ;;;
  import "ray" ;;;
  import_as "nevergrad" "ng" ;;;
  from_import "ray" "tune" ;;;
  from_import "ray.air" "session" ;;;
  from_import "ray.tune.search" "ConcurrencyLimiter" ;;;
  from_import "ray.tune.search.nevergrad" "NevergradSearch".

Definition cell_271bd5c5 : Cell := def "271bd5c5" "evaluate".

Definition cell_c71fc423 : Cell := def "c71fc423" "objective".

Definition cell_619263ee : Cell :=
  expr (call (name "ray" $. "init") [] [("configure_logging", ret (VBool false))]).

Definition cell_f099b674 : Cell :=
  assign "algo"
    (call (name "NevergradSearch") []
       [("optimizer", name "ng" $. "optimizers" $. "OnePlusOne")]) ;;;
  assign "algo"
    (call (name "tune" $. "search" $. "ConcurrencyLimiter") [name "algo"]
       [("max_concurrent", int 4)]).

Definition cell_adb807bc : Cell := assign "num_samples" (int 1000).

Definition cell_191c7f89 : Cell := assign "num_samples" (int 10).

Definition cell_8829ffc5 : Cell :=
  assign "search_config"
    (dict_
       [("steps", int 100);
        ("width", call (name "tune" $. "uniform") [int 0; int 20] []);
        ("height", call (name "tune" $. "uniform") [int (-100); int 100] []);
        ("activation",
         call (name "tune" $. "choice") [list_ [str "relu, tanh"]] [])]).

Definition cell_769f4368 : Cell :=
  assign "analysis"
    (call (name "tune" $. "run") [name "objective"]
       [("search_alg", name "algo");
        ("metric", str "mean_loss");
        ("mode", str "min");
        ("name", str "nevergrad_exp");
        ("num_samples", name "num_samples");
        ("config", name "search_config")]).

Definition cell_0f021674 : Cell :=
  expr (call (name "print")
          [str "Best hyperparameters found were: ";
           name "analysis" $. "best_config"] []).

Definition cell_89ae7455 : Cell :=
  assign "space"
    (call (name "ng" $. "p" $. "Dict") []
       [("width",
         call (name "ng" $. "p" $. "Scalar") []
           [("lower", int 0); ("upper", int 20)]);
        ("height",
         call (name "ng" $. "p" $. "Scalar") []
           [("lower", int (-100)); ("upper", int 100)]);
        ("activation",
         call (name "ng" $. "p" $. "Choice") []
           [("choices", list_ [str "relu"; str "tanh"])])]).

Definition cell_e52eeab1 : Cell :=
  assign "algo"
    (call (name "NevergradSearch") []
       [("optimizer", name "ng" $. "optimizers" $. "OnePlusOne");
        ("space", name "space");
        ("metric", str "mean_loss");
        ("mode", str "min")]) ;;;
  assign "algo"
    (call (name "tune" $. "search" $. "ConcurrencyLimiter") [name "algo"]
       [("max_concurrent", int 4)]).

Definition cell_64f39800 : Cell :=
  assign "analysis"
    (call (name "tune" $. "run") [name "objective"]
       [("search_alg", name "algo");
        ("name", str "nevergrad_exp");
        ("num_samples", name "num_samples");
        ("config", dict_ [("steps", int 100)])]).

Definition cell_0478c1ea : Cell :=
  expr (call (name "ray" $. "shutdown") [] []).

Definition notebook : list Cell :=
  [cell_5ab54f85; cell_1f6d7a31; cell_271bd5c5; cell_c71fc423;
   cell_619263ee; cell_f099b674; cell_adb807bc; cell_191c7f89;
   cell_8829ffc5; cell_769f4368; cell_0f021674; cell_89ae7455;
   cell_e52eeab1; cell_64f39800; cell_0478c1ea].

End Nevergrad.



(** ** The SigOpt notebook *)

Module SigOpt.

Definition evaluate (step : Z) (width height : Q) (activation : Value) : M Q :=
  sleep 0.1 ;;;
  let activation_boost := (if eq_str activation "relu" then 10 else 1)%Q in
  r <- pow (0.1 + width * inject_Z step / 100) (-1) ;;
  ret (r + height * 0.1 + activation_boost)%Q.

Definition objective (config : list (string * Value)) : M unit :=
  steps <- getitem config "steps" ;;
  n <- as_int steps ;;
  for_range n (fun step =>
    w <- getitem config "width" ;;
    h <- getitem config "height" ;;
    activation <- getitem config "activation" ;;
    width <- as_num w ;;
    height <- as_num h ;;
    score <- evaluate step width height activation ;;
    report [("iterations", VInt step); ("mean_loss", VNum score)]).

(** Section "Multi-objective optimization with Sigopt"; [vector1] and
    [vector2] are the globals the functions read. *)
Module MultiObjective.

Definition evaluate (vector1 vector2 w1 w2 : Value) : M (Value * Value) :=
  a <- operate "*" w1 vector1 ;;
  b <- operate "*" w2 vector2 ;;
  total <- operate "+" a b ;;
  mean <- apply (VAttr total "mean") [] [] ;;
  std <- apply (VAttr total "std") [] [] ;;
  ret (mean, std).

Definition multi_objective (vector1 vector2 : Value)
    (config : list (string * Value)) : M unit :=
  w1 <- getitem config "w1" ;;
  total_weight <- getitem config "total_weight" ;;
  w2 <- operate "-" total_weight w1 ;;
  r <- evaluate vector1 vector2 w1 w2 ;;
  let '(average, std) := r in
  sharpe <- operate "/" average std ;;
  report [("average", average); ("std", std); ("sharpe", sharpe)] ;;;
  sleep 0.1.

End MultiObjective.

(** Section "Incorporating prior beliefs with Sigopt". *)
Module PriorBeliefs.

Definition evaluate (vector1 vector2 vector3 w1 w2 w3 : Value)
    : M (Value * Value) :=
  a <- operate "*" w1 vector1 ;;
  b <- operate "*" w2 vector2 ;;
  ab <- operate "+" a b ;;
  c <- operate "*" w3 vector3 ;;
  total <- operate "+" ab c ;;
  mean <- apply (VAttr total "mean") [] [] ;;
  std <- apply (VAttr total "std") [] [] ;;
  ret (mean, std).

Definition multi_objective_two (vector1 vector2 vector3 : Value)
    (config : list (string * Value)) : M unit :=
  w1 <- getitem config "w1" ;;
  w2 <- getitem config "w2" ;;
  total <- operate "+" w1 w2 ;;
  over <- operate ">" total (VInt 1) ;;
  ws <-
    (if truthy over then
       w1' <- operate "/" w1 total ;;
       w2' <- operate "/" w2 total ;;
       ret (w1', w2', VInt 0)
     else
       w3 <- operate "-" (VInt 1) total ;;
       ret (w1, w2, w3)) ;;
  let '(w1, w2, w3) := ws in
  r <- evaluate vector1 vector2 vector3 w1 w2 w3 ;;
  let '(average, std) := r in
  report [("average", average); ("std", std)].

End PriorBeliefs.

Definition cell_6e1d6d8a : Cell := shell "pip install sigopt==7.5.0".

Definition cell_152fce99 : Cell :=
  import "time" ;;;
  import "os" ;;;
  import "ray" ;;;
  import_as "numpy" "np" ;;;
  from_import "ray" "tune" ;;;
  from_import "ray.air" "session" ;;;
  from_import "ray.tune.search.sigopt" "SigOptSearch" ;;;
  if_ (not_in (str "SIGOPT_KEY") (name "os" $. "environ"))
    (raise
       (call (name "ValueError")
          [str "SigOpt API Key not found. Please set the SIGOPT_KEY environment variable."]
          []))
    pass.

Definition cell_2f9f7650 : Cell := def "2f9f7650" "evaluate".

Definition cell_7284f24a : Cell := def "7284f24a" "objective".

Definition cell_394c722e : Cell :=
  expr (call (name "ray" $. "init") [] [("configure_logging", ret (VBool false))]).

Definition cell_57dbed8d : Cell := pass.

Definition cell_7f542011 : Cell :=
  assign "space"
    (list_
       [dict_ [("name", str "width"); ("type", str "int");
               ("bounds", dict_ [("min", int 0); ("max", int 20)])];
        dict_ [("name", str "height"); ("type", str "int");
               ("bounds", dict_ [("min", int (-100)); ("max", int 100)])];
        dict_ [("name", str "activation"); ("type", str "categorical");
               ("categorical_values", list_ [str "relu"; str "tanh"])]]).

Definition cell_a9737339 : Cell :=
  assign "algo"
    (call (name "SigOptSearch") [name "space"]
       [("name", str "SigOpt Example Experiment");
        ("max_concurrent", int 1);
        ("metric", str "mean_loss");
        ("mode", str "min")]).

Definition cell_38991a3c : Cell := assign "num_samples" (int 10).

Definition cell_a2b6d066 : Cell :=
  assign "analysis"
    (call (name "tune" $. "run") [name "objective"]
       [("name", str "sigopt_exp");
        ("search_alg", name "algo");
        ("num_samples", name "num_samples");
        ("metric", str "mean_loss");
        ("mode", str "min");
        ("config", dict_ [("steps", int 100)])]).

Definition cell_3567e642 : Cell :=
  expr (call (name "print")
          [str "Best hyperparameters found were: ";
           name "analysis" $. "best_config"] []).

Definition cell_8e13db27 : Cell :=
  expr (call (name "np" $. "random" $. "seed") [int 0] []) ;;;
  assign "vector1"
    (call (name "np" $. "random" $. "normal") [int 0; num 0.1; int 100] []) ;;;
  assign "vector2"
    (call (name "np" $. "random" $. "normal") [int 0; num 0.1; int 100] []) ;;;
  def "8e13db27" "evaluate" ;;;
  def "8e13db27" "multi_objective".

Definition cell_47ed922c : Cell :=
  assign "space"
    (list_
       [dict_ [("name", str "w1"); ("type", str "double");
               ("bounds", dict_ [("min", int 0); ("max", int 1)])]]) ;;;
  assign "algo"
    (call (name "SigOptSearch") [name "space"]
       [("name", str "sigopt_multiobj_exp");
        ("observation_budget", name "num_samples");
        ("max_concurrent", int 1);
        ("metric", list_ [str "average"; str "std"; str "sharpe"]);
        ("mode", list_ [str "max"; str "min"; str "obs"])]).

Definition cell_de17bd46 : Cell :=
  assign "analysis"
    (call (name "tune" $. "run") [name "multi_objective"]
       [("name", str "sigopt_multiobj_exp");
        ("search_alg", name "algo");
        ("num_samples", name "num_samples");
        ("config", dict_ [("total_weight", int 1)])]).

Definition cell_fcd606dd : Cell :=
  expr (call (name "print")
          [str "Best hyperparameters found were: ";
           call (name "analysis" $. "get_best_config")
             [str "average"; str "min"] []] []).

Definition cell_870dfb0d : Cell :=
  expr (call (name "np" $. "random" $. "seed") [int 0] []) ;;;
  assign "vector1"
    (call (name "np" $. "random" $. "normal") [num 0.0; num 0.1; int 100] []) ;;;
  assign "vector2"
    (call (name "np" $. "random" $. "normal") [num 0.0; num 0.1; int 100] []) ;;;
  assign "vector3"
    (call (name "np" $. "random" $. "normal") [num 0.0; num 0.1; int 100] []) ;;;
  def "870dfb0d" "evaluate" ;;;
  def "870dfb0d" "multi_objective_two".

Definition prior_parameter (x : string) : M Value :=
  dict_ [("name", str x);
         ("bounds", dict_ [("max", int 1); ("min", int 0)]);
         ("prior", dict_ [("mean", binop "/" (int 1) (int 3));
                          ("name", str "normal");
                          ("scale", num 0.2)]);
         ("type", str "double")].

Definition cell_fa992019 : Cell :=
  assign "samples" (name "num_samples") ;;;
  assign "conn"
    (call (name "Connection") []
       [("client_token", subscript (name "os" $. "environ") (str "SIGOPT_KEY"))]) ;;;
  assign "experiment"
    (call (call (name "conn" $. "experiments") [] [] $. "create") []
       [("name", str "prior experiment example");
        ("parameters", list_ [prior_parameter "w1"; prior_parameter "w2"]);
        ("metrics",
         list_
           [call (name "dict") []
              [("name", str "std"); ("objective", str "minimize");
               ("strategy", str "optimize")];
            call (name "dict") []
              [("name", str "average"); ("strategy", str "store")]]);
        ("observation_budget", name "samples");
        ("parallel_bandwidth", int 1)]) ;;;
  assign "algo"
    (call (name "SigOptSearch") []
       [("connection", name "conn");
        ("experiment_id", name "experiment" $. "id");
        ("name", str "sigopt_prior_multi_exp");
        ("max_concurrent", int 1);
        ("metric", list_ [str "average"; str "std"]);
        ("mode", list_ [str "obs"; str "min"])]).

Definition cell_da778e0f : Cell :=
  assign "analysis"
    (call (name "tune" $. "run") [name "objective"]
       [("name", str "sigopt_prior_multi_exp");
        ("search_alg", name "algo");
        ("num_samples", name "samples")]).

Definition cell_6b9142bc : Cell :=
  expr (call (name "print")
          [str "Best hyperparameters found were: ";
           call (name "analysis" $. "get_best_config")
             [str "average"; str "min"] []] []).

Definition cell_3e0151e1 : Cell :=
  expr (call (name "ray" $. "shutdown") [] []).

(** The cells that precede the one of the section on prior beliefs. *)
Definition before_prior : list Cell :=
  [cell_6e1d6d8a; cell_152fce99; cell_2f9f7650; cell_7284f24a;
   cell_394c722e; cell_57dbed8d; cell_7f542011; cell_a9737339;
   cell_38991a3c; cell_a2b6d066; cell_3567e642; cell_8e13db27;
   cell_47ed922c; cell_de17bd46; cell_fcd606dd; cell_870dfb0d].

Definition notebook : list Cell :=
  before_prior ++
  [cell_fa992019; cell_da778e0f; cell_6b9142bc; cell_3e0151e1].

End SigOpt.

(** ** The BayesOpt notebook *)

Module BayesOpt.

Definition evaluate (step : Z) (width height : Q) : M Q :=
  sleep 0.1 ;;;
  r <- pow (0.1 + width * inject_Z step / 100) (-1) ;;
  ret (r + height * 0.1)%Q.

Definition objective (config : list (string * Value)) : M unit :=
  steps <- getitem config "steps" ;;
  n <- as_int steps ;;
  for_range n (fun step =>
    w <- getitem config "width" ;;
    h <- getitem config "height" ;;
    width <- as_num w ;;
    height <- as_num h ;;
    score <- evaluate step width height ;;
    report [("iterations", VInt step); ("mean_loss", VNum score)]).

Definition cell_7ed16354 : Cell :=
  shell "pip install bayesian-optimization==1.2.0".

Definition cell_6d36c78b : Cell :=
  import "time" ;;;
  import "ray" ;;;
  from_import "ray" "tune" ;;;
  from_import "ray.air" "session" ;;;
  from_import "ray.tune.search" "ConcurrencyLimiter" ;;;
  from_import "ray.tune.search.bayesopt" "BayesOptSearch".

Definition cell_646c75a9 : Cell := def "646c75a9" "evaluate".

Definition cell_e9adf637 : Cell := def "e9adf637" "objective".

Definition cell_bc634b1d : Cell :=
  expr (call (name "ray" $. "init") [] [("configure_logging", ret (VBool false))]).

Definition cell_6f1d2fe7 : Cell :=
  assign "algo"
    (call (name "BayesOptSearch") []
       [("utility_kwargs",
         dict_ [("kind", str "ucb"); ("kappa", num 2.5); ("xi", num 0.0)])]) ;;;
  assign "algo"
    (call (name "ConcurrencyLimiter") [name "algo"]
       [("max_concurrent", int 4)]).

Definition cell_d777201c : Cell := assign "num_samples" (int 1000).

Definition cell_bb5f39a6 : Cell := assign "num_samples" (int 10).

Definition cell_116f8757 : Cell :=
  assign "search_space"
    (dict_
       [("steps", int 100);
        ("width", call (name "tune" $. "uniform") [int 0; int 20] []);
        ("height", call (name "tune" $. "uniform") [int (-100); int 100] [])]).

Definition cell_5c44a0c5 : Cell :=
  assign "analysis"
    (call (name "tune" $. "run") [name "objective"]
       [("search_alg", name "algo");
        ("metric", str "mean_loss");
        ("mode", str "min");
        ("name", str "bayesopt_exp");
        ("num_samples", name "num_samples");
        ("config", name "search_space")]).

Definition cell_3488aefa : Cell :=
  expr (call (name "print")
          [str "Best hyperparameters found were: ";
           name "analysis" $. "best_config"] []).

Definition cell_2936353a : Cell :=
  expr (call (name "ray" $. "shutdown") [] []).

Definition notebook : list Cell :=
  [cell_7ed16354; cell_6d36c78b; cell_646c75a9; cell_e9adf637;
   cell_bc634b1d; cell_6f1d2fe7; cell_d777201c; cell_bb5f39a6;
   cell_116f8757; cell_5c44a0c5; cell_3488aefa; cell_2936353a].

End BayesOpt.

(** ** The data-processing notebook (NYC taxi data) *)

Module NycTaxi.

(** The actor class [Trainer]. *)
Module Trainer.

Definition __init__ (rank : Value) : M unit := pass.

Definition train (shard : Value) : M Value :=
  it <- apply (VAttr shard "iter_batches") [] [("batch_size", VInt 256)] ;;
  batches <- items it ;;
  for_each batches (fun batch => pass) ;;;
  apply (VAttr shard "count") [] [].

End Trainer.

(** The dummy model [load_model] returns. *)
Definition model (batch : Value) : M Value :=
  col <- apply (VAttr batch "__getitem__") [VStr "passenger_count"] [] ;;
  parity <- operate "%" col (VInt 2) ;;
  even <- operate "==" parity (VInt 0) ;;
  apply (VExt "pandas.DataFrame") [VDict [("score", even)]] [].

Definition load_model : M (Value → M Value) := ret model.

(** The callable class [BatchInferModel]; an instance holds the model its
    constructor loaded. *)
Module BatchInferModel.

Record Instance := { self_model : Value → M Value }.

Definition __init__ : M Instance :=
  m <- load_model ;; ret {| self_model := m |}.

Definition __call__ (self : Instance) (batch : Value) : M Value :=
  self_model self batch.

End BatchInferModel.

Definition january : string := "s3://ursa-labs-taxi-data/2009/01/data.parquet".
Definition february : string := "s3://ursa-labs-taxi-data/2009/02/data.parquet".

Definition cell_ed5b22a4 : Cell :=
  import "warnings" ;;;
  import "os" ;;;
  expr (call (name "warnings" $. "filterwarnings") [str "ignore"] []) ;;;
  setitem (name "os" $. "environ") (str "PYTHONWARNINGS") (str "ignore").

Definition cell_366de039 : Cell :=
  import "ray" ;;;
  expr (call (name "ray" $. "init") [] []).

Definition cell_269da3de : Cell :=
  assign "ds"
    (call (name "ray" $. "data" $. "read_parquet")
       [list_ [str january; str february]] []).

Definition cell_c6c2f47d : Cell :=
  expr (call (name "ds" $. "schema") [] []).

Definition cell_5812dacf : Cell :=
  expr (call (name "ds" $. "count") [] []).

Definition cell_63894b9c : Cell := expr (name "ds").

Definition cell_6e653e63 : Cell :=
  expr (call (name "ds" $. "take") [int 1] []).

Definition cell_7f0b8702 : Cell :=
  expr (call (name "ds" $. "size_bytes") [] []).

Definition cell_f2d46bfa : Cell :=
  expr (call (call (name "ds" $. "fully_executed") [] [] $. "size_bytes") [] []).

Definition cell_9cc641b3 : Cell :=
  assign "year_ds"
    (call (name "ray" $. "data" $. "read_parquet")
       [str "s3://ursa-labs-taxi-data/2009"] []).

Definition cell_6383b4a2 : Cell := expr (name "year_ds").

Definition cell_9703a5dd : Cell := del "year_ds".

Definition cell_8a403bb4 : Cell :=
  expr (call (name "ds" $. "max")
          [list_ [str "trip_distance"; str "tip_amount"; str "passenger_count"]]
          []).

Definition cell_fa539237 : Cell :=
  expr (call
          (call (name "ds" $. "map_batches")
             [lambda (RowFilter "passenger_count" CmpGt 10)] [] $. "take")
          [] []).

Definition cell_b9fb839a : Cell :=
  assign "ds"
    (call (name "ds" $. "map_batches")
       [lambda (RowFilter "passenger_count" CmpLe 10)] []).

Definition cell_67f9565b : Cell :=
  assign "ds"
    (call (name "ds" $. "drop_columns")
       [list_ [str "store_and_fwd_flag"; str "mta_tax"]] []).

Definition cell_9f2de4f5 : Cell :=
  expr (call
          (call (call (name "ds" $. "groupby") [str "passenger_count"] []
                 $. "count") [] [] $. "take")
          [] []).

Definition cell_3a0a9567 : Cell :=
  assign "ds"
    (call (name "ds" $. "map_batches")
       [lambda (RowFilter "passenger_count" CmpGt 0)] []).

Definition cell_baa016b7 : Cell :=
  import_as "pyarrow" "pa" ;;;
  assign "filter_expr"
    (binop "&"
       (binop "<="
          (call (name "pa" $. "dataset" $. "field") [str "passenger_count"] [])
          (int 10))
       (binop ">"
          (call (name "pa" $. "dataset" $. "field") [str "passenger_count"] [])
          (int 0))) ;;;
  assign "pushdown_ds"
    (call (name "ray" $. "data" $. "read_parquet")
       [list_ [str january; str february]]
       [("columns", list_ [str "passenger_count"; str "trip_distance"]);
        ("filter", name "filter_expr")]) ;;;
  assign "pushdown_ds" (call (name "pushdown_ds" $. "fully_executed") [] []) ;;;
  expr (name "pushdown_ds").

Definition cell_d1847d7d : Cell := del "pushdown_ds".

Definition cell_245a8a97 : Cell :=
  expr (call
          (call (call (name "ds" $. "groupby") [str "passenger_count"] []
                 $. "mean") [str "trip_distance"] [] $. "take")
          [] []).

Definition cell_643acc6f : Cell :=
  assign "ds" (call (name "ds" $. "random_shuffle") [] []).

(** The class statement evaluates the decorator, then the annotations of
    the methods, then applies the decorator to the class. *)
Definition cell_c192e4d7 : Cell :=
  assign "Trainer"
    (decorator <- name "ray" $. "remote" ;;
     _ <- name "int" ;;
     _ <- name "ray" $. "data" $. "Dataset" ;;
     _ <- name "int" ;;
     apply decorator [VDef "c192e4d7" "Trainer"] []) ;;;
  assign "trainers"
    (comprehension (call (name "range") [int 4] [])
       (fun i => call (name "Trainer" $. "remote") [ret i] [])) ;;;
  expr (name "trainers").

Definition cell_d175439a : Cell :=
  assign "shards"
    (call (name "ds" $. "split") []
       [("n", call (name "len") [name "trainers"] []);
        ("equal", true_)]) ;;;
  expr (name "shards").

Definition cell_d60d0e0d : Cell :=
  expr (call (name "ray" $. "get")
          [comprehension (call (name "zip") [name "trainers"; name "shards"] [])
             (fun ws =>
                p <- unpack2 ws ;;
                let '(w, s) := p in
                call (ret w $. "train" $. "remote") [ret s] [])]
          []).

Definition cell_b1ae3f38 : Cell := del "trainers".

Definition cell_de681909 : Cell :=
  import_as "pandas" "pd" ;;;
  def "de681909" "load_model" ;;;
  (_ <- name "pd" $. "DataFrame" ;;
   _ <- name "pd" $. "DataFrame" ;;
   def "de681909" "BatchInferModel").

Definition cell_04fac86d : Cell :=
  expr (call
          (call (name "ds" $. "map_batches") [name "BatchInferModel"]
             [("batch_size", int 2048); ("compute", str "actors")] $. "take")
          [] []).

Definition cell_0c7365b7 : Cell :=
  expr (call
          (call (name "ds" $. "map_batches") [name "BatchInferModel"]
             [("batch_size", int 256); ("compute", str "actors")] $. "take")
          [] []).

Definition cell_c382fc0a : Cell :=
  from_import "ray.data" "ActorPoolStrategy" ;;;
  assign "strategy"
    (call (name "ActorPoolStrategy") []
       [("min_size", int 2); ("max_size", int 8)]) ;;;
  expr (call
          (call (name "ds" $. "map_batches") [name "BatchInferModel"]
             [("batch_size", int 256); ("compute", name "strategy")] $. "take")
          [] []).

Definition cell_a0db5ba1 : Cell := pass.

Definition notebook : list Cell :=
  [cell_ed5b22a4; cell_366de039; cell_269da3de; cell_c6c2f47d;
   cell_5812dacf; cell_63894b9c; cell_6e653e63; cell_7f0b8702;
   cell_f2d46bfa; cell_9cc641b3; cell_6383b4a2; cell_9703a5dd;
   cell_8a403bb4; cell_fa539237; cell_b9fb839a; cell_67f9565b;
   cell_9f2de4f5; cell_3a0a9567; cell_baa016b7; cell_d1847d7d;
   cell_245a8a97; cell_643acc6f; cell_c192e4d7; cell_d175439a;
   cell_d60d0e0d; cell_b1ae3f38; cell_de681909; cell_04fac86d;
   cell_0c7365b7; cell_c382fc0a; cell_a0db5ba1].

End NycTaxi.



(** ** The experiment file *)

Module CartPole.

Inductive Yaml :=
| YStr (s : string)
| YInt (z : Z)
| YFloat (q : Q)
| YBool (b : bool)
| YMap (m : list (string * Yaml)).

Definition experiments : Yaml :=
  YMap
    [("cartpole-crashing-with-remote-envs-pg",
      YMap
        [("env", YStr "ray.rllib.examples.env.cartpole_crashing.CartPoleCrashing");
         ("run", YStr "PG");
         ("stop",
          YMap [("episode_reward_mean", YFloat 35.0);
                ("timesteps_total", YInt 25000)]);
         ("config",
          YMap
            [("framework", YStr "tf");
             ("env_config",
              YMap
                [("config",
                  YMap [("p_crash", YFloat 0.0);
                        ("crash_after_n_steps", YInt 60);
                        ("init_time_s", YFloat 2.0)])]);
             ("num_workers", YInt 4);
             ("num_envs_per_worker", YInt 3);
             ("rollout_fragment_length", YInt 50);
             ("remote_worker_envs", YBool true);
             ("disable_env_checking", YBool true);
             ("restart_failed_sub_environments", YBool true)])])].

Definition field (k : string) (y : Yaml) : option Yaml :=
  match y with
  | YMap m => snd <$> List.find (fun p => String.eqb (fst p) k) m
  | _ => None
  end.

Fixpoint get (path : list string) (y : Yaml) : option Yaml :=
  match path with
  | [] => Some y
  | k :: path' =>
      match field k y with
      | Some y' => get path' y'
      | None => None
      end
  end.

Definition experiment : list string := ["cartpole-crashing-with-remote-envs-pg"].

Definition env_settings : list string :=
  experiment ++ ["config"; "env_config"; "config"].

(** Modelled from the spec: the environment class [CartPoleCrashing] is not
    among the sources.  The experiment file describes its injected
    failures: a step crashes with probability [p_crash], and the
    environment crashes "always exactly after n steps" when
    [crash_after_n_steps] is set.  [u] is the uniform draw in [0, 1) of the
    step and [t] counts the steps of the sub-environment, from 1. *)
Record Injection := {
  p_crash : Q;
  crash_after_n_steps : option Z
}.

Definition injection : option Injection :=
  match get (env_settings ++ ["p_crash"]) experiments,
        get (env_settings ++ ["crash_after_n_steps"]) experiments with
  | Some (YFloat p), Some (YInt n) =>
      Some {| p_crash := p; crash_after_n_steps := Some n |}
  | Some (YFloat p), None =>
      Some {| p_crash := p; crash_after_n_steps := None |}
  | _, _ => None
  end.

Definition crashes (i : Injection) (u : Q) (t : Z) : bool :=
  negb (Qle_bool (p_crash i) u)
  || match crash_after_n_steps i with
     | Some n => (t =? n)%Z
     | None => false
     end.

(** The step at which a sub-environment crashes, searched among the steps
    [t], [t + 1], ..., [t + fuel - 1]. *)
Fixpoint crash_step (i : Injection) (draws : nat → Q) (t fuel : nat)
    : option nat :=
  match fuel with
  | O => None
  | S fuel' =>
      if crashes i (draws t) (Z.of_nat t) then Some t
      else crash_step i draws (S t) fuel'
  end.

End CartPole.

(** * Specification *)

Open Scope list_scope.

(** ** Weakest preconditions and invariants of the namespace *)

Definition wp {A} (m : M A) (w : World) (s : State)
    (Q : Outcome A → State → Prop) : Prop :=
  Q (m w s).1 (m w s).2.

(** A cell preserves [I] whatever the world does. *)
Definition preserves (I : State → Prop) (c : Cell) : Prop :=
  ∀ w s, I s → I (c w s).2.

(** [good allowed ev_ok s]: every bound name holds a value its entry of
    [allowed] admits, and every event of the trace passes [ev_ok]. *)
Definition good (allowed : string → Value → Prop) (ev_ok : Event → bool)
    (s : State) : Prop :=
  (∀ x v, ns s !! x = Some v → allowed x v) ∧
  forallb ev_ok (trace s) = true.

(** A table of the names a notebook binds; no other name is ever bound. *)
Definition table (t : list (string * (Value → Prop))) (x : string)
    (v : Value) : Prop :=
  match List.find (fun p => String.eqb (fst p) x) t with
  | Some (_, P) => P v
  | None => False
  end.

Definition any : Value → Prop := fun _ => True.

Definition called : Value → Prop :=
  fun v => ∃ f args kw, v = VRet f args kw.

(** ** Runs: what a computation emits and how errors leave it *)

Definition quiet (e : Event) : bool :=
  match e with ERaise _ => false | _ => true end.

(** The events [evs] of a computation with outcome [o]: an error, once
    raised, is the last event and is the outcome, so it was neither caught
    nor recovered from. *)
Definition settled {A} (evs : list Event) (o : Outcome A) : Prop :=
  match o with
  | Ok _ => forallb quiet evs = true
  | Raise e => ∃ evs0, evs = evs0 ++ [ERaise e] ∧ forallb quiet evs0 = true
  end.

(** [runs R P m]: from any state and in any world, [m] extends the trace
    by events that all pass [P], errors propagate, and the final state is
    related to the initial one by [R]. *)
Definition runs (R : State → State → Prop) (P : Event → bool) {A}
    (m : M A) : Prop :=
  ∀ w s,
    R s (m w s).2 ∧
    ∃ evs, trace (m w s).2 = trace s ++ evs ∧
           forallb P evs = true ∧ settled evs (m w s).1.

Class Frame (R : State → State → Prop) := {
  frame_refl : ∀ s, R s s;
  frame_trans : ∀ s1 s2 s3, R s1 s2 → R s2 s3 → R s1 s3;
  frame_emit : ∀ e s, R s (emit e s)
}.

Definition any_change : State → State → Prop := fun _ _ => True.

Definition same_globals : State → State → Prop :=
  fun s s' => ns s' = ns s ∧ environ s' = environ s.

Definition keeps_names : State → State → Prop :=
  fun s s' => ∀ x, is_Some (ns s !! x) → is_Some (ns s' !! x).

Definition everything (e : Event) : bool := true.

(** No [raise] statement of the notebook was executed. *)
Definition not_own (e : Event) : bool :=
  match e with ERaise (Raised _ _) => false | _ => true end.

(** ** Search backends *)

Inductive Backend := NevergradSearch | BayesOptSearch | SigOptSearch.

Definition Backend_eqb (a b : Backend) : bool :=
  match a, b with
  | NevergradSearch, NevergradSearch
  | BayesOptSearch, BayesOptSearch
  | SigOptSearch, SigOptSearch => true
  | _, _ => false
  end.

Definition is_ext (v : Value) (p : string) : bool :=
  match v with VExt q => String.eqb q p | _ => false end.

(** The backend a library class constructs. *)
Definition constructor_of (f : Value) : option Backend :=
  if is_ext f "ray.tune.search.nevergrad.NevergradSearch" then Some NevergradSearch
  else if is_ext f "ray.tune.search.bayesopt.BayesOptSearch" then Some BayesOptSearch
  else if is_ext f "ray.tune.search.sigopt.SigOptSearch" then Some SigOptSearch
  else None.

(** The backend of a search algorithm: an instance of one of the three
    classes, or such an instance inside a [ConcurrencyLimiter]. *)
Fixpoint backend_of (v : Value) : option Backend :=
  match v with
  | VRet f args kw =>
      match constructor_of f with
      | Some b => Some b
      | None =>
          if is_ext f "ray.tune.search.ConcurrencyLimiter" then
            match args with
            | a :: _ => backend_of a
            | [] => None
            end
          else None
      end
  | _ => None
  end.

Definition uses (b : Backend) (v : Value) : bool :=
  match backend_of v with
  | Some b' => Backend_eqb b' b
  | None => false
  end.

(** What the tuning notebook of backend [b] may do: every [tune.run] call
    has a [search_alg] argument of backend [b], every backend constructed
    is [b], and [NevergradSearch] is given the optimizer [OnePlusOne]. *)
Definition event_ok (b : Backend) (e : Event) : bool :=
  match e with
  | ECall f args kw =>
      (if is_ext f "ray.tune.run" then
         match kw_lookup "search_alg" kw with
         | Some v => uses b v
         | None => false
         end
       else true)
      && match constructor_of f with
         | Some b' => Backend_eqb b' b
         | None => true
         end
      && (if is_ext f "ray.tune.search.nevergrad.NevergradSearch" then
            match kw_lookup "optimizer" kw with
            | Some o => is_ext o "nevergrad.optimizers.OnePlusOne"
            | None => false
            end
          else true)
  | _ => true
  end.

(** The [search_alg] arguments of the [tune.run] calls of a trace. *)
Definition search_algs (t : list Event) : list Value :=
  flat_map
    (fun e =>
       match e with
       | ECall f _ kw =>
           if is_ext f "ray.tune.run" then
             match kw_lookup "search_alg" kw with
             | Some v => [v]
             | None => [VNone]
             end
           else []
       | _ => []
       end) t.

Definition token_env : gmap string string := {["SIGOPT_KEY" := "token"]}.

(** The run of a notebook in which no library call raises and the API key
    is set. *)
Definition calm_run (nb : list Cell) : State :=
  run_cells nb (calm token_env 0) (init (calm token_env 0)).

Definition searches_through (b : Backend) (nb : list Cell) (k : nat) : Prop :=
  (∀ w n, forallb (event_ok b) (trace (run_cells (take n nb) w (init w))) = true) ∧
  map backend_of (search_algs (trace (calm_run nb))) = repeat (Some b) k.

Definition allowed_nevergrad : string → Value → Prop :=
  table
    [("time", eq (VExt "time")); ("ray", eq (VExt "ray"));
     ("ng", eq (VExt "nevergrad")); ("tune", eq (VExt "ray.tune"));
     ("session", eq (VExt "ray.air.session"));
     ("ConcurrencyLimiter", eq (VExt "ray.tune.search.ConcurrencyLimiter"));
     ("NevergradSearch", eq (VExt "ray.tune.search.nevergrad.NevergradSearch"));
     ("evaluate", any); ("objective", any); ("num_samples", any);
     ("search_config", any); ("analysis", called); ("space", any);
     ("algo", fun v => uses NevergradSearch v = true)].

Definition allowed_bayesopt : string → Value → Prop :=
  table
    [("time", eq (VExt "time")); ("ray", eq (VExt "ray"));
     ("tune", eq (VExt "ray.tune"));
     ("session", eq (VExt "ray.air.session"));
     ("ConcurrencyLimiter", eq (VExt "ray.tune.search.ConcurrencyLimiter"));
     ("BayesOptSearch", eq (VExt "ray.tune.search.bayesopt.BayesOptSearch"));
     ("evaluate", any); ("objective", any); ("num_samples", any);
     ("search_space", any); ("analysis", called);
     ("algo", fun v => uses BayesOptSearch v = true)].

Definition allowed_sigopt : string → Value → Prop :=
  table
    [("time", eq (VExt "time")); ("os", eq (VExt "os"));
     ("ray", eq (VExt "ray")); ("np", eq (VExt "numpy"));
     ("tune", eq (VExt "ray.tune"));
     ("session", eq (VExt "ray.air.session"));
     ("SigOptSearch", eq (VExt "ray.tune.search.sigopt.SigOptSearch"));
     ("evaluate", any); ("objective", any); ("multi_objective", any);
     ("multi_objective_two", any); ("space", any); ("num_samples", any);
     ("analysis", called); ("vector1", any); ("vector2", any);
     ("vector3", any); ("samples", any); ("conn", called);
     ("experiment", called);
     ("algo", fun v => uses SigOptSearch v = true)].

(** ** The dataset of the data-processing notebook *)

(** The library function or class a callee stems from. *)
Fixpoint origin (v : Value) : option string :=
  match v with
  | VExt p => Some p
  | VAttr v' _ => origin v'
  | VRet f _ _ => origin f
  | VItem v' _ => origin v'
  | _ => None
  end.

Definition read_parquet : string := "ray.data.read_parquet".

Definition is_filter (v : Value) (c : Cmp) (bound : Z) : bool :=
  match v with
  | VLambda (RowFilter col c' bound') =>
      String.eqb col "passenger_count"
      && match c, c' with
         | CmpLe, CmpLe | CmpGt, CmpGt => true
         | _, _ => false
         end
      && (bound' =? bound)%Z
  | _ => false
  end.

(** The transformations the notebook assigns back to [ds]. *)
Definition transformation (m : string) (args : list Value)
    (kw : list (string * Value)) : bool :=
  match kw with
  | [] =>
      if String.eqb m "map_batches" then
        match args with
        | [u] => is_filter u CmpLe 10 || is_filter u CmpGt 0
        | _ => false
        end
      else if String.eqb m "drop_columns" then
        match args with
        | [VList [a; b]] => eq_str a "store_and_fwd_flag" && eq_str b "mta_tax"
        | _ => false
        end
      else if String.eqb m "random_shuffle" then
        match args with [] => true | _ => false end
      else false
  | _ => false
  end.

(** A dataset read from the two Parquet files by [ray.data.read_parquet]
    and then only transformed by the row filters, [drop_columns] and
    [random_shuffle]. *)
Fixpoint is_lineage (v : Value) : bool :=
  match v with
  | VRet (VExt p) [VList [a; b]] [] =>
      String.eqb p read_parquet
      && eq_str a NycTaxi.january && eq_str b NycTaxi.february
  | VRet (VAttr d m) args kw => is_lineage d && transformation m args kw
  | _ => false
  end.

Definition dataset_methods : list string :=
  ["schema"; "count"; "take"; "size_bytes"; "fully_executed"; "max";
   "map_batches"; "drop_columns"; "groupby"; "random_shuffle"; "split"].

Definition origins : list string :=
  ["warnings.filterwarnings"; "ray.init"; read_parquet; "ray.remote";
   "ray.get"; "pyarrow.dataset.field"; "ray.data.ActorPoolStrategy"].

(** Every call of the data notebook stems from the distributed framework
    (or from the two helpers that set the warning filter and build the
    pushed-down filter expression), and a method called on [ds] is a
    method of the dataset API. *)
Definition taxi_event_ok (e : Event) : bool :=
  match e with
  | ECall f args kw =>
      match origin f with
      | Some p => mem p origins
      | None => false
      end
      && match f with
         | VAttr d m => if is_lineage d then mem m dataset_methods else true
         | _ => true
         end
  | _ => true
  end.

Definition trainer_class : Value :=
  VRet (VExt "ray.remote") [VDef "c192e4d7" "Trainer"] [].

Definition trainer (i : Z) : Value :=
  VRet (VAttr trainer_class "remote") [VInt i] [].

Definition trainers : Value :=
  VList [trainer 0; trainer 1; trainer 2; trainer 3].

Definition split4 (d : Value) : Value :=
  VRet (VAttr d "split") [] [("n", VInt 4); ("equal", VBool true)].

Definition shard (d : Value) (i : nat) : Value := VItem (split4 d) i.

Definition shards (d : Value) : Value :=
  VList [shard d 0; shard d 1; shard d 2; shard d 3].

Definition from_parquet : Value → Prop :=
  fun v => called v ∧ origin v = Some read_parquet.

Definition allowed_taxi : string → Value → Prop :=
  table
    [("warnings", eq (VExt "warnings")); ("os", eq (VExt "os"));
     ("ray", eq (VExt "ray")); ("pa", eq (VExt "pyarrow"));
     ("pd", eq (VExt "pandas"));
     ("ActorPoolStrategy", eq (VExt "ray.data.ActorPoolStrategy"));
     ("ds", fun v => is_lineage v = true);
     ("year_ds", from_parquet); ("pushdown_ds", from_parquet);
     ("filter_expr", any);
     ("Trainer", eq trainer_class);
     ("trainers", eq trainers);
     ("shards", fun v => ∃ d, is_lineage d = true ∧ v = shards d);
     ("load_model", any); ("BatchInferModel", any); ("strategy", any)].

Definition parquet : Value :=
  VRet (VExt read_parquet)
    [VList [VStr NycTaxi.january; VStr NycTaxi.february]] [].

Definition method (d : Value) (m : string) (args : list Value) : Value :=
  VRet (VAttr d m) args [].

(** The value of [ds] at the end of the notebook. *)
Definition processed : Value :=
  method
    (method
       (method
          (method parquet "map_batches"
             [VLambda (RowFilter "passenger_count" CmpLe 10)])
          "drop_columns" [VList [VStr "store_and_fwd_flag"; VStr "mta_tax"]])
       "map_batches" [VLambda (RowFilter "passenger_count" CmpGt 0)])
    "random_shuffle" [].

(** The methods called on datasets read from Parquet, in order. *)
Definition dataset_calls (t : list Event) : list string :=
  flat_map
    (fun e =>
       match e with
       | ECall (VAttr d m) _ _ => if is_lineage d then [m] else []
       | _ => []
       end) t.

(** The pairs (trainer, shard) of the [train.remote] calls. *)
Definition train_calls (t : list Event) : list (Value * Value) :=
  flat_map
    (fun e =>
       match e with
       | ECall (VAttr (VAttr w "train") "remote") [s] [] => [(w, s)]
       | _ => []
       end) t.

(** The user-defined functions given to [map_batches]. *)
Definition batch_functions (t : list Event) : list Value :=
  flat_map
    (fun e =>
       match e with
       | ECall (VAttr _ "map_batches") [u] _ => [u]
       | _ => []
       end) t.

Definition batch_infer_model : Value := VDef "de681909" "BatchInferModel".

Definition taxi_run : State :=
  run_cells NycTaxi.notebook (calm ∅ 0) (init (calm ∅ 0)).

(** ** What the functions of the notebooks do *)

(** The events of a function a notebook defines: sleeping, reporting a
    metric, reducing an array, reading the batches and the row count of
    its shard, reading a column and building a frame; it executes no
    [raise] statement. *)
Definition helper_event (e : Event) : bool :=
  match e with
  | ESleep _ | EIter _ => true
  | ERaise (Raised _ _) => false
  | ERaise _ => true
  | ECall (VExt p) _ _ => mem p ["ray.air.session.report"; "pandas.DataFrame"]
  | ECall (VAttr _ m) _ _ =>
      mem m ["mean"; "std"; "iter_batches"; "count"; "__getitem__"]
  | _ => false
  end.

(** The instance the constructor of [BatchInferModel] builds. *)
Definition batch_infer_instance : NycTaxi.BatchInferModel.Instance :=
  {| NycTaxi.BatchInferModel.self_model := NycTaxi.model |}.

(** Each function a notebook defines only emits helper events, leaves the
    global namespace and the environment as they were, and lets an error
    propagate to its caller. *)
Definition functions_only_help : Prop :=
  (∀ step width height activation,
     runs same_globals helper_event
       (Nevergrad.evaluate step width height activation)) ∧
  (∀ config, runs same_globals helper_event (Nevergrad.objective config)) ∧
  (∀ step width height activation,
     runs same_globals helper_event
       (SigOpt.evaluate step width height activation)) ∧
  (∀ config, runs same_globals helper_event (SigOpt.objective config)) ∧
  (∀ vector1 vector2 w1 w2,
     runs same_globals helper_event
       (SigOpt.MultiObjective.evaluate vector1 vector2 w1 w2)) ∧
  (∀ vector1 vector2 config,
     runs same_globals helper_event
       (SigOpt.MultiObjective.multi_objective vector1 vector2 config)) ∧
  (∀ vector1 vector2 vector3 w1 w2 w3,
     runs same_globals helper_event
       (SigOpt.PriorBeliefs.evaluate vector1 vector2 vector3 w1 w2 w3)) ∧
  (∀ vector1 vector2 vector3 config,
     runs same_globals helper_event
       (SigOpt.PriorBeliefs.multi_objective_two vector1 vector2 vector3
          config)) ∧
  (∀ step width height,
     runs same_globals helper_event (BayesOpt.evaluate step width height)) ∧
  (∀ config, runs same_globals helper_event (BayesOpt.objective config)) ∧
  (∀ rank, runs same_globals helper_event (NycTaxi.Trainer.__init__ rank)) ∧
  (∀ shard, runs same_globals helper_event (NycTaxi.Trainer.train shard)) ∧
  (∀ batch, runs same_globals helper_event (NycTaxi.model batch)) ∧
  runs same_globals helper_event NycTaxi.load_model ∧
  runs same_globals helper_event NycTaxi.BatchInferModel.__init__ ∧
  (∀ batch,
     runs same_globals helper_event
       (NycTaxi.BatchInferModel.__call__ batch_infer_instance batch)).

(** The number of calls of a library function, and of a method. *)
Definition calls (p : string) (t : list Event) : nat :=
  length (List.filter (fun e => match e with ECall f _ _ => is_ext f p | _ => false end) t).

Definition method_calls (m : string) (t : list Event) : nat :=
  length (List.filter (fun e => match e with ECall f _ _ => is_method f m | _ => false end) t).

(** The [max_concurrent] arguments given to the library. *)
Definition max_concurrent (t : list Event) : list Value :=
  flat_map
    (fun e =>
       match e with
       | ECall _ _ kw =>
           match kw_lookup "max_concurrent" kw with
           | Some v => [v]
           | None => []
           end
       | _ => []
       end) t.

Definition all_cells : list Cell :=
  Nevergrad.notebook ++ SigOpt.notebook ++ BayesOpt.notebook ++ NycTaxi.notebook.

(** Every cell but the import cell of the SigOpt notebook. *)
Definition other_cells : list Cell :=
  Nevergrad.notebook
  ++ take 1 SigOpt.notebook ++ drop 2 SigOpt.notebook
  ++ BayesOpt.notebook ++ NycTaxi.notebook.

Definition key_message : string :=
  "SigOpt API Key not found. Please set the SIGOPT_KEY environment variable.".

(** ** Sampling a search space *)

(** Modelled from the spec: the sampling of the tuning library is not among
    the sources.  [tune.uniform(lo, hi)] yields a float in [lo, hi),
    [tune.choice(l)] yields an element of [l], and any other entry of a
    search space is a constant. *)
Definition in_domain (d v : Value) : Prop :=
  match d with
  | VRet (VExt p) args [] =>
      if String.eqb p "ray.tune.uniform" then
        match args with
        | [lo; hi] =>
            match num_of lo, num_of hi, v with
            | Some l, Some h, VNum q => (l <= q)%Q ∧ (q < h)%Q
            | _, _, _ => False
            end
        | _ => False
        end
      else if String.eqb p "ray.tune.choice" then
        match args with
        | [VList l] => In v l
        | _ => False
        end
      else v = d
  | _ => v = d
  end.

Definition sampled (space config : list (string * Value)) : Prop :=
  Forall2 (fun d c => fst c = fst d ∧ in_domain (snd d) (snd c)) space config.

(** The value the Nevergrad notebook binds to [search_config]. *)
Definition search_config : list (string * Value) :=
  [("steps", VInt 100);
   ("width", VRet (VExt "ray.tune.uniform") [VInt 0; VInt 20] []);
   ("height", VRet (VExt "ray.tune.uniform") [VInt (-100); VInt 100] []);
   ("activation", VRet (VExt "ray.tune.choice") [VList [VStr "relu, tanh"]] [])].

(** The base of the reciprocal in [evaluate]. *)
Definition base (step : Z) (width : Q) : Q :=
  (0.1 + width * inject_Z step / 100)%Q.

(** The score with the activation boost 1. *)
Definition unboosted (step : Z) (width height : Q) : Q :=
  ((0.1 + width * inject_Z step / 100) ^ (-1) + height * 0.1 + 1)%Q.

(** A configuration drawn from [search_config]. *)
Definition drawn (width height : Q) : list (string * Value) :=
  [("steps", VInt 100); ("width", VNum width); ("height", VNum height);
   ("activation", VStr "relu, tanh")].

(** A report whose loss is the unboosted score of its iteration. *)
Definition report_unboosted (width height : Q) (e : Event) : bool :=
  match e with
  | ECall f [VDict [(_, VInt step); (_, VNum score)]] [] =>
      negb (is_ext f "ray.air.session.report")
      || Qeq_bool score (unboosted step width height)
  | ECall f _ _ => negb (is_ext f "ray.air.session.report")
  | _ => true
  end.

Definition reports (t : list Event) : nat := calls "ray.air.session.report" t.

Definition report_score (step : Z) (score : Q) : Event :=
  ECall (VExt "ray.air.session.report")
    [VDict [("iterations", VInt step); ("mean_loss", VNum score)]] [].

(** What running the key check tells about the environment variable, from
    the state [s] it starts in. *)
Definition key_check_outcome (w : World) (o : Outcome unit) : Prop :=
  match o with
  | Ok _ => is_Some (env0 w !! "SIGOPT_KEY")
  | Raise (Raised cls msg) =>
      cls = "ValueError" ∧ msg = key_message ∧ env0 w !! "SIGOPT_KEY" = None
  | Raise _ => True
  end.

(** ** Properties of the functions and of the runs *)

(** The state [s] with the events [evs] appended to its trace. *)
Definition extend (evs : list Event) (s : State) : State :=
  mkState (ns s) (environ s) (trace s ++ evs).

(** The loss [evaluate] computes from a step, a width and a height, and
    the boost it adds for the activation. *)
Definition loss (step : Z) (width height : Q) : Q :=
  (base step width ^ (-1) + height * 0.1)%Q.

Definition boost (activation : Value) : Q :=
  (if eq_str activation "relu" then 10 else 1)%Q.

(** How a call of [evaluate] that divides by zero ends: after the sleep. *)
Definition division_by_zero (s : State) : Outcome Q * State :=
  (Raise ZeroDivisionError,
   emit (ERaise ZeroDivisionError) (emit (ESleep 0.1) s)).

(** The values [range(n)] yields. *)
Definition range (n : Z) : list Z := map Z.of_nat (seq 0 (Z.to_nat n)).

(** The events of one iteration of [objective]. *)
Definition iteration (score : Z → Q) (step : Z) : list Event :=
  [ESleep 0.1; report_score step (score step)].

(** The first of [keys] that [config] lacks. *)
Definition missing (config : list (string * Value)) (keys : list string)
    : option string :=
  List.find
    (fun k => match kw_lookup k config with None => true | Some _ => false end)
    keys.

Definition key_error {A} (k : string) (s : State) : Outcome A * State :=
  (Raise (KeyError k), emit (ERaise (KeyError k)) s).

(** What a call of [objective] does on a configuration that lacks a key or
    asks for no step; [keys] are the keys its loop body reads, in order. *)
Definition edge_behaviour (keys : list string)
    (objective : list (string * Value) → M unit)
    (config : list (string * Value)) (w : World) (s : State) : Prop :=
  match kw_lookup "steps" config with
  | None => objective config w s = key_error "steps" s
  | Some (VInt n) =>
      if (n <=? 0)%Z then objective config w s = (Ok tt, s)
      else
        match missing config keys with
        | Some k => objective config w s = key_error k s
        | None => True
        end
  | Some _ => True
  end.

(** An error that comes out of a library: a call that raised, or a module
    that could not be imported. *)
Definition library_error (e : Exn) : bool :=
  match e with
  | ExternalError _ | ModuleNotFoundError _ => true
  | _ => false
  end.

(** An outcome that is no error of the notebook's own code: the
    computation returned, or a library raised. *)
Definition only_library_errors {A} (o : Outcome A) : bool :=
  match o with
  | Ok _ => true
  | Raise e => library_error e
  end.

(** The weighted sums the functions of the SigOpt notebook reduce, as the
    operators build them on arrays. *)
Definition total2 (w1 v1 w2 v2 : Value) : Value :=
  VOp "+" [VOp "*" [w1; v1]; VOp "*" [w2; v2]].

Definition total3 (w1 v1 w2 v2 w3 v3 : Value) : Value :=
  VOp "+" [total2 w1 v1 w2 v2; VOp "*" [w3; v3]].

(** The call of a reduction [m] on an array, and its result. *)
Definition reduce (total : Value) (m : string) : Event :=
  ECall (VAttr total m) [] [].

Definition reduced (total : Value) (m : string) : Value :=
  VRet (VAttr total m) [] [].

Definition reported (metrics : list (string * Value)) : Event :=
  ECall (VExt "ray.air.session.report") [VDict metrics] [].

(** The events of [multi_objective] and of [multi_objective_two] on the
    weighted sum [total]. *)
Definition multi_objective_events (total : Value) : list Event :=
  [reduce total "mean"; reduce total "std";
   reported [("average", reduced total "mean"); ("std", reduced total "std");
             ("sharpe",
              VOp "/" [reduced total "mean"; reduced total "std"])];
   ESleep 0.1].

Definition multi_objective_two_events (total : Value) : list Event :=
  [reduce total "mean"; reduce total "std";
   reported [("average", reduced total "mean"); ("std", reduced total "std")]].

(** The events of [Trainer.train] on a shard. *)
Definition batches (shard : Value) : Value :=
  VRet (VAttr shard "iter_batches") [] [("batch_size", VInt 256)].

Definition train_events (shard : Value) : list Event :=
  [ECall (VAttr shard "iter_batches") [] [("batch_size", VInt 256)];
   EIter (batches shard);
   ECall (VAttr shard "count") [] []].

(** How "run all" may end in the world [w]: without error, or with the
    error of a library call that raised. *)
Definition stops_in_library (w : World) (o : Outcome unit) : Prop :=
  match o with
  | Ok _ => True
  | Raise e => library_error e = true ∧ ∃ n, raises w n = true
  end.

(** How "run all" of the SigOpt notebook ends, with the state it leaves:
    at the key check, in a library, or at the unbound name [Connection]
    after the two experiments that precede it. *)
Definition sigopt_stop (w : World) (o : Outcome unit) (s : State) : Prop :=
  match o with
  | Ok _ => False
  | Raise e =>
      (e = Raised "ValueError" key_message ∧
       env0 w !! "SIGOPT_KEY" = None ∧
       calls "ray.tune.run" (trace s) = 0%nat) ∨
      (library_error e = true ∧ (∃ n, raises w n = true) ∧
       (calls "ray.tune.run" (trace s) ≤ 2)%nat) ∨
      (e = NameError "Connection" ∧
       is_Some (env0 w !! "SIGOPT_KEY") ∧
       calls "ray.tune.run" (trace s) = 2%nat)
  end.

(** ** What the cells leave unchanged *)

Definition same_environ : State → State → Prop :=
  fun s s' => environ s' = environ s.

(** The environment is as it was, but for the warning filter. *)
Definition warnings_ignored : State → State → Prop :=
  fun s s' =>
    environ s' = environ s ∨
    environ s' = <["PYTHONWARNINGS" := "ignore"]> (environ s).

(** The name [x], once unbound, stays unbound. *)
Definition stays_unbound (x : string) : State → State → Prop :=
  fun s s' => ns s !! x = None → ns s' !! x = None.

(** ** What the experiments are given *)

Definition is_def (v : Value) (cell x : string) : bool :=
  match v with
  | VDef c y => String.eqb c cell && String.eqb y x
  | _ => false
  end.

Definition is_int (v : Value) (n : Z) : bool :=
  match v with VInt z => (z =? n)%Z | _ => false end.

(** The positional arguments of the [tune.run] calls of a trace, and their
    [num_samples] arguments. *)
Definition trainables (t : list Event) : list (list Value) :=
  flat_map
    (fun e =>
       match e with
       | ECall f args _ => if is_ext f "ray.tune.run" then [args] else []
       | _ => []
       end) t.

Definition sample_counts (t : list Event) : list (option Value) :=
  flat_map
    (fun e =>
       match e with
       | ECall f _ kw =>
           if is_ext f "ray.tune.run" then [kw_lookup "num_samples" kw]
           else []
       | _ => []
       end) t.

Definition no_experiment (e : Event) : bool :=
  match e with
  | ECall f _ _ => negb (is_ext f "ray.tune.run")
  | _ => true
  end.

(** A [tune.run] call is given one of the functions [defs] (cell and name)
    and 10 samples. *)
Definition experiment_ok (defs : list (string * string)) (e : Event) : bool :=
  match e with
  | ECall f args kw =>
      if is_ext f "ray.tune.run" then
        match args with
        | [g] => existsb (fun d => is_def g (fst d) (snd d)) defs
        | _ => false
        end
        && match kw_lookup "num_samples" kw with
           | Some v => is_int v 10
           | None => false
           end
      else true
  | _ => true
  end.

Definition ten : Value → Prop := eq (VInt 10).

(** The names of the tuning notebooks, with the functions they define;
    [P] is what is known of [num_samples]. *)
Definition names_nevergrad (P : Value → Prop) : string → Value → Prop :=
  table
    [("time", eq (VExt "time")); ("ray", eq (VExt "ray"));
     ("ng", eq (VExt "nevergrad")); ("tune", eq (VExt "ray.tune"));
     ("session", eq (VExt "ray.air.session"));
     ("ConcurrencyLimiter", eq (VExt "ray.tune.search.ConcurrencyLimiter"));
     ("NevergradSearch", eq (VExt "ray.tune.search.nevergrad.NevergradSearch"));
     ("evaluate", any); ("objective", eq (VDef "c71fc423" "objective"));
     ("num_samples", P); ("search_config", any); ("analysis", called);
     ("space", any); ("algo", any)].

Definition names_bayesopt (P : Value → Prop) : string → Value → Prop :=
  table
    [("time", eq (VExt "time")); ("ray", eq (VExt "ray"));
     ("tune", eq (VExt "ray.tune"));
     ("session", eq (VExt "ray.air.session"));
     ("ConcurrencyLimiter", eq (VExt "ray.tune.search.ConcurrencyLimiter"));
     ("BayesOptSearch", eq (VExt "ray.tune.search.bayesopt.BayesOptSearch"));
     ("evaluate", any); ("objective", eq (VDef "e9adf637" "objective"));
     ("num_samples", P); ("search_space", any); ("analysis", called);
     ("algo", any)].

Definition names_sigopt (P : Value → Prop) : string → Value → Prop :=
  table
    [("time", eq (VExt "time")); ("os", eq (VExt "os"));
     ("ray", eq (VExt "ray")); ("np", eq (VExt "numpy"));
     ("tune", eq (VExt "ray.tune"));
     ("session", eq (VExt "ray.air.session"));
     ("SigOptSearch", eq (VExt "ray.tune.search.sigopt.SigOptSearch"));
     ("evaluate", any); ("objective", eq (VDef "7284f24a" "objective"));
     ("multi_objective", eq (VDef "8e13db27" "multi_objective"));
     ("multi_objective_two", any); ("space", any); ("num_samples", P);
     ("analysis", called); ("vector1", any); ("vector2", any);
     ("vector3", any); ("samples", eq (VInt 10)); ("conn", called);
     ("experiment", called); ("algo", any)].

(** A [tune.run] call given one function, among [defs]. *)
Definition given (defs : list (string * string)) (args : list Value) : Prop :=
  ∃ d, In d defs ∧ args = [VDef (fst d) (snd d)].

(** The parameters of the functions named [evaluate], by the cell that
    defines them. *)
Definition parameters (cell x : string) : option (list string) :=
  if negb (String.eqb x "evaluate") then None
  else if String.eqb cell "271bd5c5" || String.eqb cell "2f9f7650" then
    Some ["step"; "width"; "height"; "activation"]
  else if String.eqb cell "646c75a9" then Some ["step"; "width"; "height"]
  else if String.eqb cell "8e13db27" then Some ["w1"; "w2"]
  else if String.eqb cell "870dfb0d" then Some ["w1"; "w2"; "w3"]
  else None.

(** Whether the value is a function [evaluate] that takes [n] positional
    arguments. *)
Definition takes (v : option Value) (n : nat) : bool :=
  match v with
  | Some (VDef cell x) =>
      match parameters cell x with
      | Some ps => Nat.eqb (length ps) n
      | None => false
      end
  | _ => false
  end.

(** What holds of the state in which "run all" leaves the cells, when none
    of them raised. *)
Definition after_run_all (cells : list Cell) (w : World)
    (Q : State → Prop) : Prop :=
  match run_all cells w (init w) with
  | (Ok _, s) => Q s
  | (Raise _, _) => True
  end.

(** * Proofs *)

(** ** Symbolic execution *)

Section Rules.
Context {A : Type} (w : World) (s : State) (Q : Outcome A → State → Prop).

Lemma wp_ret a : Q (Ok a) s → wp (ret a) w s Q.
Proof. done. Qed.

Lemma wp_throw e : Q (Raise e) (emit (ERaise e) s) → wp (throw e) w s Q.
Proof. done. Qed.

Lemma wp_bind {B} (m : M B) (f : B → M A) :
  wp m w s
    (fun o s' =>
       match o with
       | Ok a => wp (f a) w s' Q
       | Raise e => Q (Raise e) s'
       end) →
  wp (bind m f) w s Q.
Proof. unfold wp, bind. by destruct (m w s) as [[a|e] s']. Qed.

Lemma wp_effect ev e a :
  (if raises w (length (trace s))
   then Q (Raise e) (emit (ERaise e) (emit ev s))
   else Q (Ok a) (emit ev s)) →
  wp (effect ev e a) w s Q.
Proof. unfold wp, effect. by destruct (raises _ _). Qed.

End Rules.

Section StateRules.
Context (w : World) (s : State).

Lemma wp_name x (Q : Outcome Value → State → Prop) :
  match ns s !! x with
  | Some v => Q (Ok v) s
  | None =>
      if is_builtin x then Q (Ok (VBuiltin x)) s
      else Q (Raise (NameError x)) (emit (ERaise (NameError x)) s)
  end →
  wp (name x) w s Q.
Proof.
  unfold wp, name. destruct (ns s !! x); [done|]. by destruct (is_builtin x).
Qed.

Lemma wp_del x (Q : Outcome unit → State → Prop) :
  match ns s !! x with
  | Some v => Q (Ok tt) (unset_name x s)
  | None => Q (Raise (NameError x)) (emit (ERaise (NameError x)) s)
  end →
  wp (del x) w s Q.
Proof. unfold wp, del. by destruct (ns s !! x). Qed.

Lemma wp_store x v (Q : Outcome unit → State → Prop) :
  Q (Ok tt) (set_name x v s) → wp (store x v) w s Q.
Proof. done. Qed.

Lemma wp_shell c (Q : Outcome unit → State → Prop) :
  Q (Ok tt) (emit (EShell c) s) → wp (shell c) w s Q.
Proof. done. Qed.

Lemma wp_env_has k (Q : Outcome bool → State → Prop) :
  Q (Ok (bool_decide (is_Some (environ s !! k)))) s → wp (env_has k) w s Q.
Proof. done. Qed.

Lemma wp_env_get k (Q : Outcome string → State → Prop) :
  match environ s !! k with
  | Some v => Q (Ok v) s
  | None => Q (Raise (KeyError k)) (emit (ERaise (KeyError k)) s)
  end →
  wp (env_get k) w s Q.
Proof. unfold wp, env_get. by destruct (environ s !! k). Qed.

Lemma wp_env_set k v (Q : Outcome unit → State → Prop) :
  Q (Ok tt) (set_env k v s) → wp (env_set k v) w s Q.
Proof. done. Qed.

Lemma wp_iter_count (Q : Outcome nat → State → Prop) :
  Q (Ok (iter_len w (length (trace s)))) s → wp iter_count w s Q.
Proof. done. Qed.

Lemma wp_apply f args kw (Q : Outcome Value → State → Prop) :
  match builtin_call f args kw with
  | Some v => Q (Ok v) s
  | None =>
      if raises w (length (trace s))
      then Q (Raise (ExternalError f))
             (emit (ERaise (ExternalError f)) (emit (ECall f args kw) s))
      else Q (Ok (returned f args kw)) (emit (ECall f args kw) s)
  end →
  wp (apply f args kw) w s Q.
Proof.
  unfold wp, apply. destruct (builtin_call f args kw); [done|].
  unfold effect. by destruct (raises _ _).
Qed.

End StateRules.

Lemma ns_emit e s : ns (emit e s) = ns s.
Proof. done. Qed.

Lemma ns_set_name x v s : ns (set_name x v s) = <[x:=v]> (ns s).
Proof. done. Qed.

Lemma ns_unset_name x s : ns (unset_name x s) = delete x (ns s).
Proof. done. Qed.

Lemma ns_set_env k v s : ns (set_env k v s) = ns s.
Proof. done. Qed.

Lemma environ_emit e s : environ (emit e s) = environ s.
Proof. done. Qed.

Lemma environ_set_name x v s : environ (set_name x v s) = environ s.
Proof. done. Qed.

Lemma builtin_call_getattr v a args kw :
  builtin_call (getattr v a) args kw = None.
Proof. by destruct v. Qed.

Section Good.
Variable allowed : string → Value → Prop.
Variable ev_ok : Event → bool.

Lemma good_set_name s x v :
  allowed x v → good allowed ev_ok s → good allowed ev_ok (set_name x v s).
Proof.
  intros Hv [H1 H2]. split; [|done]. simpl. intros y u.
  rewrite lookup_insert. case_decide; [|by apply H1]. intros [= <-]. by subst.
Qed.

Lemma good_unset_name s x :
  good allowed ev_ok s → good allowed ev_ok (unset_name x s).
Proof.
  intros [H1 H2]. split; [|done]. simpl. intros y u.
  rewrite lookup_delete. case_decide; [done|by apply H1].
Qed.

Lemma good_set_env s k v :
  good allowed ev_ok s → good allowed ev_ok (set_env k v s).
Proof. by intros [H1 H2]. Qed.

Lemma good_emit s e :
  ev_ok e = true → good allowed ev_ok s → good allowed ev_ok (emit e s).
Proof.
  intros Hv [H1 H2]. split; [done|]. simpl. rewrite forallb_app. simpl.
  by rewrite H2, Hv.
Qed.

Lemma good_lookup s x v :
  good allowed ev_ok s → ns s !! x = Some v → allowed x v.
Proof. intros [H _]. apply H. Qed.

Lemma good_init w : good allowed ev_ok (init w).
Proof. split; [|done]. intros x v. simpl. by rewrite lookup_empty. Qed.

End Good.

Lemma run_cells_preserves I cells :
  Forall (preserves I) cells → ∀ w s, I s → I (run_cells cells w s).
Proof.
  induction 1 as [|c cs Hc _ IH]; intros w s Hs; simpl; [done|].
  apply IH. by apply Hc.
Qed.

Lemma run_cells_app a b w s :
  run_cells (a ++ b) w s = run_cells b w (run_cells a w s).
Proof. revert s. induction a as [|c a IH]; intros s; simpl; [done|]. apply IH. Qed.

Lemma run_all_ok cells w s s' :
  run_all cells w s = (Ok tt, s') → s' = run_cells cells w s.
Proof.
  revert s. induction cells as [|c cells IH]; intros s; simpl.
  - by intros [= <-].
  - unfold bind. destruct (c w s) as [[[]|e] s1]; [apply IH|done].
Qed.

(** The invariant holds after every prefix of a notebook. *)
Lemma prefix_good allowed ev_ok nb :
  Forall (preserves (good allowed ev_ok)) nb →
  ∀ w n, good allowed ev_ok (run_cells (take n nb) w (init w)).
Proof.
  intros H w n. apply run_cells_preserves; [|apply good_init].
  by apply Forall_take.
Qed.

Lemma preserves_wp I c :
  (∀ w s, I s → wp c w s (fun _ s' => I s')) → preserves I c.
Proof. done. Qed.

Ltac norm_lookup :=
  repeat first
    [ rewrite ns_emit | rewrite ns_set_name | rewrite ns_unset_name
    | rewrite ns_set_env
    | rewrite lookup_insert_eq
    | rewrite lookup_insert_ne by (intros ?; discriminate)
    | rewrite lookup_delete_eq
    | rewrite lookup_delete_ne by (intros ?; discriminate) ].

Ltac head_of t :=
  lazymatch t with
  | ?f _ => head_of f
  | _ => t
  end.

(** What a hypothesis of the invariant says about a value. *)
Ltac digest A :=
  lazymatch type of A with
  | False => destruct A
  | True => clear A
  | _ ∧ _ =>
      let A1 := fresh "A" in let A2 := fresh "A" in
      destruct A as [A1 A2]; digest A1; digest A2
  | ex _ => let d := fresh "d" in destruct A as [d A]; digest A
  | _ = true => idtac
  | ?x = ?y => first [ is_var x; subst x | is_var y; subst y | idtac ]
  | _ => idtac
  end.

Ltac learn Hg E :=
  let A := fresh "A" in
  pose proof (good_lookup _ _ _ _ _ Hg E) as A;
  hnf in A; digest A.

Ltac case_lookup Hg :=
  lazymatch goal with
  | |- match ns ?s !! ?x with _ => _ end =>
      first
        [ match goal with H : ns s !! x = _ |- _ => rewrite H end
        | let E := fresh "E" in
          destruct (ns s !! x) eqn:E; [ try learn Hg E | ] ]
  | |- _ => idtac
  end.

Ltac case_raises :=
  lazymatch goal with
  | |- if raises ?w ?n then _ else _ => destruct (raises w n) eqn:?
  | |- _ => idtac
  end.

Ltac wp_step Hg :=
  cbv beta iota zeta;
  lazymatch goal with
  | |- if is_builtin ?x then _ else _ =>
      let b := eval vm_compute in (is_builtin x) in
      change (is_builtin x) with b
  | |- wp (bind _ _) _ _ _ => apply wp_bind
  | |- wp (ret _) _ _ _ => apply wp_ret
  | |- wp (throw _) _ _ _ => apply wp_throw
  | |- wp (store _ _) _ _ _ => apply wp_store
  | |- wp (shell _) _ _ _ => apply wp_shell
  | |- wp (env_set _ _) _ _ _ => apply wp_env_set
  | |- wp iter_count _ _ _ => apply wp_iter_count
  | |- wp (env_has _) _ _ _ =>
      apply wp_env_has;
      lazymatch goal with
      | |- context [bool_decide ?P] => destruct (bool_decide P) eqn:?
      end
  | |- wp (env_get _) _ _ _ =>
      apply wp_env_get;
      lazymatch goal with
      | |- match ?e with _ => _ end => destruct e eqn:?
      end
  | |- wp (effect _ _ _) _ _ _ => apply wp_effect; case_raises
  | |- wp (name _) _ _ _ => apply wp_name; norm_lookup; case_lookup Hg
  | |- wp (del _) _ _ _ => apply wp_del; norm_lookup; case_lookup Hg
  | |- wp (apply ?f ?args ?kw) _ _ _ =>
      apply wp_apply;
      first
        [ rewrite builtin_call_getattr
        | let r := eval cbv in (builtin_call f args kw) in
          change (builtin_call f args kw) with r ];
      cbv beta iota; case_raises
  | |- wp (operate ?op ?a ?b) _ _ _ =>
      let r := eval cbv -[ret throw] in (operate op a b) in
      change (operate op a b) with r
  | |- wp (sequence _) _ _ _ => cbn [sequence map]
  | |- wp (sequence_kw _) _ _ _ => cbn [sequence_kw]
  | |- wp (match ?v with _ => _ end) _ _ _ =>
      let r := eval cbv in v in change v with r
  | |- wp ?m _ _ _ => let h := head_of m in unfold h
  end.

Ltac ok_tac :=
  first
    [ reflexivity
    | cbn; repeat match goal with H : _ = true |- _ => rewrite H end;
      reflexivity ].

Ltac allowed_tac :=
  hnf;
  first [ reflexivity | exact I | cbn; assumption
        | do 3 eexists; reflexivity ].

Ltac good_tac Hg ok allowed :=
  repeat lazymatch goal with
  | |- good _ _ (emit _ _) => apply good_emit; [ ok | ]
  | |- good _ _ (set_name _ _ _) => apply good_set_name; [ allowed | ]
  | |- good _ _ (unset_name _ _) => apply good_unset_name
  | |- good _ _ (set_env _ _ _) => apply good_set_env
  | |- good _ _ _ => exact Hg
  end.

Ltac cell_proof c ok allowed :=
  let w := fresh "w" in let s := fresh "s" in let Hg := fresh "Hg" in
  apply preserves_wp; intros w s Hg; unfold c;
  repeat (wp_step Hg); cbv beta iota zeta; try discriminate;
  good_tac Hg ok allowed.

Ltac cells_proof ok allowed :=
  repeat match goal with
  | |- Forall _ [] => constructor
  | |- Forall _ (?c :: _) => constructor; [ cell_proof c ok allowed | ]
  end.

(** ** The invariants of the tuning notebooks *)

Lemma nevergrad_cells :
  Forall (preserves (good allowed_nevergrad (event_ok NevergradSearch)))
    Nevergrad.notebook.
Proof. unfold Nevergrad.notebook. cells_proof ok_tac allowed_tac. Qed.

Lemma bayesopt_cells :
  Forall (preserves (good allowed_bayesopt (event_ok BayesOptSearch)))
    BayesOpt.notebook.
Proof. unfold BayesOpt.notebook. cells_proof ok_tac allowed_tac. Qed.

Lemma sigopt_cells :
  Forall (preserves (good allowed_sigopt (event_ok SigOptSearch)))
    SigOpt.notebook.
Proof.
  unfold SigOpt.notebook, SigOpt.before_prior. simpl app.
  cells_proof ok_tac allowed_tac.
Qed.

(** ** The invariant of the data notebook *)

Lemma lineage_called v :
  is_lineage v = true → ∃ f args kw, v = VRet f args kw.
Proof. destruct v; try discriminate. eauto. Qed.

Lemma getattr_lineage v a : is_lineage v = true → getattr v a = VAttr v a.
Proof. intros (f & args & kw & ->)%lineage_called. done. Qed.

Lemma origin_lineage :
  ∀ v, is_lineage v = true → origin v = Some read_parquet.
Proof.
  fix IH 1. intros v.
  destruct v as [ | | | | | | | | | | | | |f args kw| | ]; try discriminate.
  destruct f as [ | | | | | | | |p| | | |d m| | | ]; try discriminate.
  - simpl.
    repeat match goal with
    | |- context [match ?x with _ => _ end] =>
        is_var x; destruct x; try discriminate
    end.
    intros H. repeat (apply andb_prop in H as [H ?]).
    apply String.eqb_eq in H. by subst.
  - simpl. intros [H1 H2]%andb_prop. by apply IH.
Qed.

Ltac taxi_pre :=
  repeat match goal with
  | H : is_lineage ?a = true |- context [getattr ?a ?x] =>
      rewrite (getattr_lineage a x H)
  end.

Ltac taxi_ok :=
  taxi_pre;
  first
    [ reflexivity
    | cbn;
      repeat match goal with
      | H : is_lineage ?a = true |- _ => rewrite ?(origin_lineage a H), ?H
      | H : origin _ = _ |- _ => rewrite H
      end; reflexivity ].

Ltac taxi_allowed :=
  hnf; taxi_pre;
  first
    [ reflexivity | exact I
    | cbn;
      repeat match goal with
      | H : is_lineage ?a = true |- _ => rewrite H
      end; reflexivity
    | eexists; split; [ eassumption | reflexivity ]
    | split;
      [ do 3 eexists; reflexivity
      | cbn; first [ reflexivity | assumption ] ] ].

Lemma taxi_cells :
  Forall (preserves (good allowed_taxi taxi_event_ok)) NycTaxi.notebook.
Proof. unfold NycTaxi.notebook. cells_proof taxi_ok taxi_allowed. Qed.

(** ** Runs *)

#[export] Instance any_change_frame : Frame any_change.
Proof. by split. Qed.

#[export] Instance same_globals_frame : Frame same_globals.
Proof.
  split; [by intros s|..|by intros e s].
  intros s1 s2 s3 [H1 H2] [H3 H4]. split; congruence.
Qed.

#[export] Instance keeps_names_frame : Frame keeps_names.
Proof.
  split; [by intros s x|..|by intros e s x].
  intros s1 s2 s3 H1 H2 x Hx. by apply H2, H1.
Qed.

Section Runs.
Context (R : State → State → Prop) `{!Frame R} (P : Event → bool).

Lemma runs_ret {A} (a : A) : runs R P (ret a).
Proof.
  intros w s. split; [apply frame_refl|]. exists []. simpl.
  by rewrite app_nil_r.
Qed.

Lemma runs_throw {A} e : P (ERaise e) = true → runs R P (@throw A e).
Proof.
  intros HP w s. split; [apply frame_emit|]. exists [ERaise e]. simpl.
  rewrite HP. repeat split; try done. by exists [].
Qed.

Lemma runs_bind {A B} (m : M A) (f : A → M B) :
  runs R P m → (∀ a, runs R P (f a)) → runs R P (bind m f).
Proof.
  intros Hm Hf w s. unfold bind.
  destruct (Hm w s) as (HR & evs & Htr & HP & Hset).
  destruct (m w s) as [[a|e] s1]; simpl in *.
  - destruct (Hf a w s1) as (HR' & evs' & Htr' & HP' & Hset').
    split; [by eapply frame_trans|].
    exists (evs ++ evs'). rewrite Htr', Htr, app_assoc, forallb_app, HP, HP'.
    repeat split; try done.
    destruct (f a w s1) as [[b|e] s2]; simpl in *.
    + by rewrite forallb_app, Hset, Hset'.
    + destruct Hset' as (evs0 & -> & Hq). exists (evs ++ evs0).
      by rewrite app_assoc, forallb_app, Hset, Hq.
  - split; [done|]. by exists evs.
Qed.

Lemma runs_quiet {A} (a : A) ev :
  P ev = true → quiet ev = true → runs R P (fun _ s => (Ok a, emit ev s)).
Proof.
  intros HP Hq w s. split; [apply frame_emit|]. exists [ev]. simpl.
  by rewrite HP, Hq.
Qed.

Lemma runs_effect {A} ev e (a : A) :
  P ev = true → quiet ev = true → P (ERaise e) = true →
  runs R P (effect ev e a).
Proof.
  intros HP Hq HP' w s. unfold effect. destruct (raises _ _); simpl.
  - split; [eapply frame_trans; apply frame_emit|].
    exists [ev; ERaise e]. rewrite <- app_assoc. simpl. rewrite HP, HP'.
    repeat split; try done. exists [ev]. simpl. by rewrite Hq.
  - split; [apply frame_emit|]. exists [ev]. simpl. by rewrite HP, Hq.
Qed.

Lemma runs_name x : P (ERaise (NameError x)) = true → runs R P (name x).
Proof.
  intros HP w s. unfold name.
  destruct (ns s !! x); [apply (runs_ret _ w s)|].
  destruct (is_builtin x); [apply (runs_ret _ w s)|].
  by apply (runs_throw _ HP w s).
Qed.

Lemma runs_env_has k : runs R P (env_has k).
Proof. intros w s. apply (runs_ret _ w s). Qed.

Lemma runs_env_get k : P (ERaise (KeyError k)) = true → runs R P (env_get k).
Proof.
  intros HP w s. unfold env_get.
  destruct (environ s !! k); [apply (runs_ret _ w s)|].
  by apply (runs_throw _ HP w s).
Qed.

Lemma runs_iter_count : runs R P iter_count.
Proof. intros w s. apply (runs_ret _ w s). Qed.

Lemma runs_shell c : P (EShell c) = true → runs R P (shell c).
Proof. intros HP. by apply runs_quiet. Qed.

Lemma runs_sleep q : P (ESleep q) = true → runs R P (sleep q).
Proof. intros HP. by apply runs_quiet. Qed.

Lemma runs_apply f args kw :
  P (ECall f args kw) = true → P (ERaise (ExternalError f)) = true →
  runs R P (apply f args kw).
Proof.
  intros H1 H2. unfold apply. destruct (builtin_call _ _ _); [apply runs_ret|].
  by apply runs_effect.
Qed.

Lemma runs_operate op a b :
  P (ERaise ZeroDivisionError) = true → runs R P (operate op a b).
Proof.
  intros HP. unfold operate.
  repeat match goal with
  | |- runs _ _ (match ?x with _ => _ end) => destruct x
  end; first [apply runs_ret|by apply runs_throw].
Qed.

Lemma runs_sequence {A} (ms : list (M A)) :
  Forall (runs R P) ms → runs R P (sequence ms).
Proof.
  induction 1 as [|m ms Hm _ IH]; simpl; [apply runs_ret|].
  apply runs_bind; [done|]. intros a. apply runs_bind; [done|]. intros l.
  apply runs_ret.
Qed.

Lemma runs_sequence_kw {A} (ms : list (string * M A)) :
  Forall (fun p => runs R P p.2) ms → runs R P (sequence_kw ms).
Proof.
  induction 1 as [|[k m] ms Hm _ IH]; simpl; [apply runs_ret|].
  apply runs_bind; [done|]. intros a. apply runs_bind; [done|]. intros l.
  apply runs_ret.
Qed.

Lemma runs_for_each {A} (l : list A) (body : A → M unit) :
  (∀ a, In a l → runs R P (body a)) → runs R P (for_each l body).
Proof.
  induction l as [|a l IH]; intros H; simpl; [apply runs_ret|].
  apply runs_bind; [apply H; by left|]. intros _. apply IH.
  intros b Hb. apply H. by right.
Qed.

Lemma runs_items v :
  P (EIter v) = true → P (ERaise (ExternalError v)) = true →
  runs R P (items v).
Proof.
  intros H1 H2. unfold items.
  assert (runs R P (n <- iter_count;;
                    effect (EIter v) (ExternalError v) (map (VItem v) (seq 0 n)))).
  { apply runs_bind; [apply runs_iter_count|]. intros n. by apply runs_effect. }
  destruct v; try done; apply runs_ret.
Qed.

Lemma runs_getitem config k :
  P (ERaise (KeyError k)) = true → runs R P (getitem config k).
Proof.
  intros HP. unfold getitem. destruct (kw_lookup _ _); [apply runs_ret|].
  by apply runs_throw.
Qed.

Lemma runs_as_int v :
  (∀ m, P (ERaise (TypeError m)) = true) → runs R P (as_int v).
Proof.
  intros HP. destruct v; simpl; first [apply runs_ret|by apply runs_throw].
Qed.

Lemma runs_as_num v :
  (∀ m, P (ERaise (TypeError m)) = true) → runs R P (as_num v).
Proof.
  intros HP. unfold as_num.
  destruct (num_of v); [apply runs_ret|by apply runs_throw].
Qed.

Lemma runs_pow b e :
  P (ERaise ZeroDivisionError) = true → runs R P (pow b e).
Proof.
  intros HP. unfold pow. destruct (_ && _); [by apply runs_throw|apply runs_ret].
Qed.

Lemma runs_unpack2 v :
  (∀ m, P (ERaise (ValueError m)) = true) → runs R P (unpack2 v).
Proof.
  intros HP. unfold unpack2.
  repeat match goal with
  | |- runs _ _ (match ?x with _ => _ end) => destruct x
  end; first [apply runs_ret|by apply runs_throw].
Qed.

Lemma runs_store x v : (∀ s, R s (set_name x v s)) → runs R P (store x v).
Proof.
  intros HR w s. split; [apply HR|]. exists []. simpl. by rewrite app_nil_r.
Qed.

Lemma runs_env_set k v : (∀ s, R s (set_env k v s)) → runs R P (env_set k v).
Proof.
  intros HR w s. split; [apply HR|]. exists []. simpl. by rewrite app_nil_r.
Qed.

Lemma runs_del x :
  (∀ s, R s (unset_name x s)) → P (ERaise (NameError x)) = true →
  runs R P (del x).
Proof.
  intros HR HP w s. unfold del. destruct (ns s !! x).
  - split; [apply HR|]. exists []. simpl. by rewrite app_nil_r.
  - by apply (runs_throw _ HP w s).
Qed.

End Runs.

Lemma runs_weaken (R R' : State → State → Prop) (P P' : Event → bool) {A}
    (m : M A) :
  (∀ s s', R s s' → R' s s') → (∀ e, P e = true → P' e = true) →
  runs R P m → runs R' P' m.
Proof.
  intros HR HP Hm w s. destruct (Hm w s) as (H1 & evs & H2 & H3 & H4).
  split; [by apply HR|]. exists evs. repeat split; try done.
  rewrite forallb_forall in *. intros e He. apply HP, H3, He.
Qed.

(** A computation that runs under [not_own] never ends in an exception of
    a [raise] statement. *)
Lemma runs_not_own R {A} (m : M A) w s cls msg :
  runs R not_own m → (m w s).1 ≠ Raise (Raised cls msg).
Proof.
  intros Hm Ho. destruct (Hm w s) as (_ & evs & _ & HP & Hs).
  rewrite Ho in Hs. destruct Hs as (evs0 & -> & _).
  rewrite forallb_app in HP. simpl in HP. by rewrite andb_false_r in HP.
Qed.

Lemma keeps_set_name x v s : keeps_names s (set_name x v s).
Proof.
  intros y Hy. simpl. rewrite lookup_insert. by case_decide.
Qed.

Lemma keeps_set_env k v s : keeps_names s (set_env k v s).
Proof. by intros y Hy. Qed.

Lemma run_cells_keeps P cells w s :
  Forall (runs keeps_names P) cells → keeps_names s (run_cells cells w s).
Proof.
  intros H. revert s. induction H as [|c cs Hc _ IH]; intros s; simpl.
  - by intros x.
  - intros x Hx. apply IH. by apply (Hc w s).
Qed.

Lemma Forall_map_intro {A B} (Q : B → Prop) (f : A → B) (l : list A) :
  (∀ a, Q (f a)) → Forall Q (map f l).
Proof. intros H. induction l; simpl; constructor; auto. Qed.

Ltac runs_side :=
  lazymatch goal with
  | |- Frame _ => exact _
  | |- _ =>
      first [ reflexivity | intros; reflexivity | intros; exact I
            | intros; apply keeps_set_name | intros; apply keeps_set_env ]
  end.

Ltac runs_step :=
  lazymatch goal with
  | |- Frame _ => exact _
  | |- ∀ _, _ => intros ?
  | |- runs _ _ (bind _ _) => apply runs_bind
  | |- runs _ _ (ret _) => apply runs_ret
  | |- runs _ _ (throw _) => apply runs_throw; runs_side
  | |- runs _ _ (name _) => apply runs_name; runs_side
  | |- runs _ _ (store _ _) => apply runs_store; runs_side
  | |- runs _ _ (del _) => apply runs_del; runs_side
  | |- runs _ _ (shell _) => apply runs_shell; runs_side
  | |- runs _ _ (sleep _) => apply runs_sleep; runs_side
  | |- runs _ _ (env_has _) => apply runs_env_has
  | |- runs _ _ (env_get _) => apply runs_env_get; runs_side
  | |- runs _ _ (env_set _ _) => apply runs_env_set; runs_side
  | |- runs _ _ (effect _ _ _) => apply runs_effect; runs_side
  | |- runs _ _ (apply _ _ _) => apply runs_apply; runs_side
  | |- runs _ _ (operate _ _ _) => apply runs_operate; runs_side
  | |- runs _ _ (items _) => apply runs_items; runs_side
  | |- runs _ _ (unpack2 _) => apply runs_unpack2; runs_side
  | |- runs _ _ (getitem _ _) => apply runs_getitem; runs_side
  | |- runs _ _ (as_int _) => apply runs_as_int; runs_side
  | |- runs _ _ (as_num _) => apply runs_as_num; runs_side
  | |- runs _ _ (pow _ _) => apply runs_pow; runs_side
  | |- runs _ _ (sequence (map _ _)) =>
      apply runs_sequence; [ | apply Forall_map_intro ]
  | |- runs _ _ (sequence _) => apply runs_sequence
  | |- runs _ _ (sequence_kw _) => apply runs_sequence_kw
  | |- Forall _ [] => constructor
  | |- Forall _ (_ :: _) => constructor; [ cbn [snd] | ]
  | |- runs _ _ (for_each _ _) => apply runs_for_each; [ | intros ? ? ]
  | |- runs _ _ (match ?v with _ => _ end) => destruct v
  | |- runs _ _ ?m => let h := head_of m in unfold h
  end.

Ltac runs_tac := repeat runs_step.

Ltac runs_cells := repeat (constructor; [ runs_tac | ]); try constructor.

(** No cell but the key check executes a [raise] statement, and no cell
    catches an error. *)
Lemma other_cells_run : Forall (runs any_change not_own) other_cells.
Proof.
  unfold other_cells, Nevergrad.notebook, SigOpt.notebook,
    SigOpt.before_prior, BayesOpt.notebook, NycTaxi.notebook.
  cbn [app take drop]. runs_cells.
Qed.

Lemma key_check_runs : runs any_change everything SigOpt.cell_152fce99.
Proof. runs_tac. Qed.

(** No cell of the SigOpt notebook unbinds a name. *)
Lemma sigopt_keeps_names :
  Forall (runs keeps_names everything) SigOpt.notebook.
Proof.
  unfold SigOpt.notebook, SigOpt.before_prior. cbn [app]. runs_cells.
Qed.

(** ** The functions the notebooks define *)

Lemma base_lower step width :
  (0 <= step)%Z → (0 <= width)%Q → (0.1 <= base step width)%Q.
Proof.
  intros Hs Hw. unfold base.
  assert (0 <= inject_Z step)%Q as Hi.
  { change 0%Q with (inject_Z 0). by rewrite <- Zle_Qle. }
  assert (0 <= width * inject_Z step)%Q as Hm by by apply Qmult_le_0_compat.
  assert (0 <= width * inject_Z step / 100)%Q as Hd.
  { unfold Qdiv. apply Qmult_le_0_compat; [done|]. discriminate. }
  lra.
Qed.

Lemma base_nonzero step width :
  (0 <= step)%Z → (0 <= width)%Q → Qeq_bool (base step width) 0 = false.
Proof.
  intros Hs Hw. pose proof (base_lower step width Hs Hw) as H.
  destruct (Qeq_bool (base step width) 0) eqn:E; [|done].
  apply Qeq_bool_iff in E. lra.
Qed.

Lemma nevergrad_evaluate_eq step width height activation w s :
  (0 <= step)%Z → (0 <= width)%Q →
  Nevergrad.evaluate step width height activation w s =
    (Ok (base step width ^ (-1) + height * 0.1
         + (if eq_str activation "relu" then 10 else 1))%Q,
     emit (ESleep 0.1) s).
Proof.
  intros Hs Hw. unfold Nevergrad.evaluate, bind, sleep, pow. simpl.
  fold (base step width). by rewrite (base_nonzero _ _ Hs Hw).
Qed.

Lemma sigopt_evaluate_eq step width height activation w s :
  (0 <= step)%Z → (0 <= width)%Q →
  SigOpt.evaluate step width height activation w s =
    (Ok (base step width ^ (-1) + height * 0.1
         + (if eq_str activation "relu" then 10 else 1))%Q,
     emit (ESleep 0.1) s).
Proof.
  intros Hs Hw. unfold SigOpt.evaluate, bind, sleep, pow. simpl.
  fold (base step width). by rewrite (base_nonzero _ _ Hs Hw).
Qed.

Lemma bayesopt_evaluate_eq step width height w s :
  (0 <= step)%Z → (0 <= width)%Q →
  BayesOpt.evaluate step width height w s =
    (Ok (base step width ^ (-1) + height * 0.1)%Q, emit (ESleep 0.1) s).
Proof.
  intros Hs Hw. unfold BayesOpt.evaluate, bind, sleep, pow. simpl.
  fold (base step width). by rewrite (base_nonzero _ _ Hs Hw).
Qed.

Lemma functions_run : functions_only_help.
Proof.
  repeat apply conj; runs_tac.
  change (runs same_globals helper_event (NycTaxi.model batch)). runs_tac.
Qed.

(** The constructor of [BatchInferModel] loads the model once; a call of
    the instance applies it. *)
Lemma batch_infer_model_instance w s batch :
  NycTaxi.BatchInferModel.__init__ w s = (Ok batch_infer_instance, s) ∧
  NycTaxi.BatchInferModel.__call__ batch_infer_instance batch
  = NycTaxi.model batch.
Proof. done. Qed.

(** ** Theorems *)

(** C1. Each of the three tuning notebooks constructs search algorithms of
    exactly one backend (NevergradSearch over the optimizer OnePlusOne,
    BayesOptSearch, SigOptSearch) and, whatever the libraries do, every
    [tune.run] call it makes receives as [search_alg] an instance of that
    backend (inside the ConcurrencyLimiter the notebook wraps around it for
    Nevergrad and BayesOpt); when no call raises, the notebooks make 2, 1
    and 3 such calls. *)
Theorem tuning_goes_through_one_backend :
  searches_through NevergradSearch Nevergrad.notebook 2 ∧
  searches_through BayesOptSearch BayesOpt.notebook 1 ∧
  searches_through SigOptSearch SigOpt.notebook 3.
Proof.
  split; [|split]; (split; [|vm_compute; reflexivity]); intros w n.
  - apply (prefix_good _ _ _ nevergrad_cells w n).
  - apply (prefix_good _ _ _ bayesopt_cells w n).
  - apply (prefix_good _ _ _ sigopt_cells w n).
Qed.

(** C2. The experiment file configures algorithm PG with framework tf on
    the CartPoleCrashing environment, with [p_crash] 0.0,
    [crash_after_n_steps] 60 and [restart_failed_sub_environments] true;
    with these settings a step of a sub-environment crashes exactly when
    it is the 60th, whatever the random draws, so every sub-environment
    crashes after exactly 60 steps. *)
Theorem cartpole_crashes_exactly_after_60_steps (draws : nat → Q)
    (fuel : nat) :
  (∀ t, 0 <= draws t)%Q → (60 ≤ fuel)%nat →
  CartPole.get (CartPole.experiment ++ ["run"]) CartPole.experiments
    = Some (CartPole.YStr "PG") ∧
  CartPole.get (CartPole.experiment ++ ["env"]) CartPole.experiments
    = Some (CartPole.YStr
              "ray.rllib.examples.env.cartpole_crashing.CartPoleCrashing") ∧
  CartPole.get (CartPole.experiment ++ ["config"; "framework"])
      CartPole.experiments
    = Some (CartPole.YStr "tf") ∧
  CartPole.get
      (CartPole.experiment ++ ["config"; "restart_failed_sub_environments"])
      CartPole.experiments
    = Some (CartPole.YBool true) ∧
  ∃ i, CartPole.injection = Some i ∧
       CartPole.p_crash i = 0.0%Q ∧
       CartPole.crash_after_n_steps i = Some 60%Z ∧
       (∀ t, CartPole.crashes i (draws t) (Z.of_nat t) = (t =? 60)%nat) ∧
       CartPole.crash_step i draws 1 fuel = Some 60.
Proof.
  intros Hd Hf. do 4 (split; [reflexivity|]).
  eexists. split; [reflexivity|]. split; [reflexivity|]. split; [reflexivity|].
  assert (∀ t, CartPole.crashes
                 {| CartPole.p_crash := 0.0;
                    CartPole.crash_after_n_steps := Some 60%Z |}
                 (draws t) (Z.of_nat t) = (t =? 60)%nat) as Hc.
  { intros t. unfold CartPole.crashes. simpl.
    assert (Qle_bool 0.0 (draws t) = true) as ->.
    { apply Qle_bool_iff. pose proof (Hd t). lra. }
    simpl. destruct (Nat.eqb_spec t 60) as [->|Hne]; [done|].
    apply Z.eqb_neq. lia. }
  split; [exact Hc|].
  assert (∀ k t, (t + k = 60)%nat → ∀ f, (k < f)%nat →
                 CartPole.crash_step
                   {| CartPole.p_crash := 0.0;
                      CartPole.crash_after_n_steps := Some 60%Z |}
                   draws t f = Some 60) as Hs.
  { induction k as [|k IH]; intros t Ht f Hk.
    - destruct f as [|f]; [lia|]. simpl. rewrite Hc.
      assert (t = 60) as -> by lia. done.
    - destruct f as [|f]; [lia|]. simpl. rewrite Hc.
      destruct (Nat.eqb_spec t 60) as [->|Hne]; [lia|].
      apply (IH (S t)); lia. }
  apply (Hs 59 1); lia.
Qed.

Lemma cartpole_crashes_exactly_after_60_steps_witness :
  CartPole.crash_step
    {| CartPole.p_crash := 0.0; CartPole.crash_after_n_steps := Some 60%Z |}
    (fun _ => 0.5%Q) 1 100 = Some 60.
Proof.
  destruct (cartpole_crashes_exactly_after_60_steps (fun _ => 0.5%Q) 100)
    as (_ & _ & _ & _ & i & Hi & _ & _ & _ & Hs).
  - intros t. discriminate.
  - lia.
  - injection Hi as <-. exact Hs.
Defined.

Lemma ns_init w : ns (init w) = ∅.
Proof. done. Qed.

(** The cell of the section on prior beliefs stops at [Connection]. *)
Lemma prior_cell_raises w s v :
  ns s !! "Connection" = None → ns s !! "num_samples" = Some v →
  (SigOpt.cell_fa992019 w s).1 = Raise (NameError "Connection").
Proof.
  intros Hc Hv.
  change (wp SigOpt.cell_fa992019 w s
            (fun o _ => o = Raise (NameError "Connection"))).
  unfold SigOpt.cell_fa992019.
  repeat (wp_step I). cbv beta iota zeta. reflexivity.
Qed.

Lemma sigopt_connection_unbound w n :
  ns (run_cells (take n SigOpt.notebook) w (init w)) !! "Connection" = None.
Proof.
  pose proof (prefix_good _ _ _ sigopt_cells w n) as Hg.
  destruct (ns _ !! "Connection") eqn:E; [|done].
  destruct (good_lookup _ _ _ _ _ Hg E).
Qed.

Lemma sigopt_num_samples_bound w :
  is_Some (ns (run_cells SigOpt.before_prior w (init w)) !! "num_samples").
Proof.
  change SigOpt.before_prior
    with (take 8 SigOpt.notebook ++ [SigOpt.cell_38991a3c]
          ++ take 7 (drop 9 SigOpt.notebook)).
  rewrite !run_cells_app.
  eapply run_cells_keeps.
  - apply Forall_take, Forall_drop, sigopt_keeps_names.
  - simpl. rewrite lookup_insert_eq. by eexists.
Qed.

(** C7. In the SigOpt notebook no cell binds the name [Connection],
    whatever the libraries do; so when the cells are executed in order the
    cell of the section on prior beliefs raises NameError for it, whether
    the earlier cells were run one by one or by "run all" without an
    error. *)
Theorem connection_raises_name_error (w : World) :
  (∀ n, ns (run_cells (take n SigOpt.notebook) w (init w)) !! "Connection"
        = None) ∧
  (SigOpt.cell_fa992019 w (run_cells SigOpt.before_prior w (init w))).1
    = Raise (NameError "Connection") ∧
  match run_all SigOpt.before_prior w (init w) with
  | (Ok _, s) => (SigOpt.cell_fa992019 w s).1 = Raise (NameError "Connection")
  | (Raise _, _) => True
  end.
Proof.
  assert ((SigOpt.cell_fa992019 w
             (run_cells SigOpt.before_prior w (init w))).1
          = Raise (NameError "Connection")) as H.
  { destruct (sigopt_num_samples_bound w) as [v Hv].
    apply (prior_cell_raises w _ v); [|done].
    apply (sigopt_connection_unbound w 16). }
  split; [apply sigopt_connection_unbound|]. split; [done|].
  destruct (run_all _ _ _) as [[[]|e] s] eqn:E; [|done].
  apply run_all_ok in E. by subst.
Qed.

Lemma key_check_outcome_holds w :
  key_check_outcome w
    (SigOpt.cell_152fce99 w (run_cells (take 1 SigOpt.notebook) w (init w))).1.
Proof.
  change (run_cells (take 1 SigOpt.notebook) w (init w))
    with (emit (EShell "pip install sigopt==7.5.0") (init w)).
  set (s := emit _ _).
  assert (ns s !! "ValueError" = None) as Hn by apply lookup_empty.
  assert (environ s = env0 w) as He by done.
  clearbody s.
  change (wp SigOpt.cell_152fce99 w s (fun o _ => key_check_outcome w o)).
  unfold SigOpt.cell_152fce99.
  repeat (wp_step I).
  all: cbv beta iota zeta; try exact I.
  all: repeat match goal with H : raises _ _ = _ |- _ => clear H end.
  all: match goal with
       | H : bool_decide _ = _ |- _ =>
           cbn [environ set_name emit] in H; rewrite He in H
       end.
  - match goal with H : bool_decide _ = true |- _ =>
      by apply bool_decide_eq_true in H end.
  - match goal with H : bool_decide _ = false |- _ =>
      apply bool_decide_eq_false in H end.
    repeat split. by apply eq_None_not_Some.
Qed.

(** C4, as amended.  Error recovery is not owned by the repository: no cell
    and no function of a notebook catches or recovers from an error, and
    the restart of crashed sub-environments and the environment check are
    switches of the experiment file.  One failure check is the
    repository's own: the import cell of the SigOpt notebook, the only
    place that executes a [raise] statement, raises ValueError exactly
    when its imports succeed and SIGOPT_KEY is absent from the
    environment. *)
Theorem only_the_key_check_raises :
  Forall (runs any_change not_own) other_cells ∧
  SigOpt.notebook !! 1%nat = Some SigOpt.cell_152fce99 ∧
  runs any_change everything SigOpt.cell_152fce99 ∧
  (∀ w, key_check_outcome w
          (SigOpt.cell_152fce99 w
             (run_cells (take 1 SigOpt.notebook) w (init w))).1) ∧
  functions_only_help ∧
  CartPole.get
      (CartPole.experiment ++ ["config"; "restart_failed_sub_environments"])
      CartPole.experiments
    = Some (CartPole.YBool true) ∧
  CartPole.get (CartPole.experiment ++ ["config"; "disable_env_checking"])
      CartPole.experiments
    = Some (CartPole.YBool true).
Proof.
  split; [apply other_cells_run|]. split; [reflexivity|].
  split; [apply key_check_runs|]. split; [apply key_check_outcome_holds|].
  split; [apply functions_run|]. split; reflexivity.
Qed.

(** C4 as stated fails: with SIGOPT_KEY unset, the import cell of the
    SigOpt notebook raises ValueError by its own [raise] statement, so not
    every cell runs without raising an error itself. *)
Lemma key_check_raises_value_error :
  (SigOpt.cell_152fce99 (calm ∅ 0)
     (run_cells (take 1 SigOpt.notebook) (calm ∅ 0) (init (calm ∅ 0)))).1
    = Raise (Raised "ValueError" key_message) ∧
  ¬ Forall (runs any_change not_own) all_cells.
Proof.
  assert ((SigOpt.cell_152fce99 (calm ∅ 0)
             (run_cells (take 1 SigOpt.notebook) (calm ∅ 0)
                (init (calm ∅ 0)))).1
          = Raise (Raised "ValueError" key_message)) as H
    by (vm_compute; reflexivity).
  split; [exact H|]. intros Hall.
  assert (runs any_change not_own SigOpt.cell_152fce99) as Hr.
  { rewrite Forall_forall in Hall. apply Hall.
    unfold all_cells. rewrite !elem_of_app. right. left.
    by apply (list_elem_of_lookup_2 _ 1%nat). }
  by apply (runs_not_own _ _ _ _ _ _ Hr) in H.
Qed.


(** C3. Whatever the libraries do, the dataset [ds] of the data notebook is
    always one read by [ray.data.read_parquet] from the two Parquet files
    and then only transformed by the row filters passenger_count <= 10 and
    passenger_count > 0, by [drop_columns] of store_and_fwd_flag and
    mta_tax and by [random_shuffle], and every call of the notebook stems
    from the distributed framework.  When no call raises, [ds] ends as the
    shuffle of the second filter of the drop of the first filter; it is
    split into 4 equal shards, shard i is given to trainer i of 4, and the
    grouped statistics and the batch inference are method calls on it. *)
Theorem taxi_processing_through_dataset_api :
  (∀ w n,
     forallb taxi_event_ok
       (trace (run_cells (take n NycTaxi.notebook) w (init w))) = true ∧
     match ns (run_cells (take n NycTaxi.notebook) w (init w)) !! "ds" with
     | Some v => is_lineage v = true
     | None => True
     end) ∧
  ns taxi_run !! "ds" = Some processed ∧
  ns taxi_run !! "shards" = Some (shards processed) ∧
  dataset_calls (trace taxi_run)
    = ["schema"; "count"; "take"; "size_bytes"; "fully_executed"; "max";
       "map_batches"; "map_batches"; "drop_columns"; "groupby";
       "map_batches"; "groupby"; "random_shuffle"; "split"; "map_batches";
       "map_batches"; "map_batches"] ∧
  batch_functions (trace taxi_run)
    = [VLambda (RowFilter "passenger_count" CmpGt 10);
       VLambda (RowFilter "passenger_count" CmpLe 10);
       VLambda (RowFilter "passenger_count" CmpGt 0);
       batch_infer_model; batch_infer_model; batch_infer_model] ∧
  train_calls (trace taxi_run)
    = [(trainer 0, shard processed 0); (trainer 1, shard processed 1);
       (trainer 2, shard processed 2); (trainer 3, shard processed 3)].
Proof.
  split.
  - intros w n. pose proof (prefix_good _ _ _ taxi_cells w n) as Hg.
    split; [apply Hg|].
    destruct (ns _ !! "ds") eqn:E; [|done].
    apply (good_lookup _ _ _ _ _ Hg E).
  - repeat (split; [vm_compute; reflexivity|]). vm_compute. reflexivity.
Qed.

(** One iteration of [objective] on a configuration drawn from
    [search_config]: it sleeps and reports the unboosted score. *)
Lemma objective_step (step : Z) width height w s :
  (0 <= step)%Z → (0 <= width)%Q →
  (w0 <- getitem (drawn width height) "width" ;;
   h <- getitem (drawn width height) "height" ;;
   activation <- getitem (drawn width height) "activation" ;;
   width <- as_num w0 ;;
   height <- as_num h ;;
   score <- Nevergrad.evaluate step width height activation ;;
   report [("iterations", VInt step); ("mean_loss", VNum score)]) w s
  = (_ <- effect (report_score step (unboosted step width height))
            (ExternalError (VExt "ray.air.session.report"))
            (VRet (VExt "ray.air.session.report")
               [VDict [("iterations", VInt step);
                       ("mean_loss", VNum (unboosted step width height))]]
               []) ;;
     ret tt) w (emit (ESleep 0.1) s).
Proof.
  intros Hs Hw. unfold bind at 1 2 3 4 5 6. simpl.
  rewrite (nevergrad_evaluate_eq _ _ _ _ _ _ Hs Hw). reflexivity.
Qed.

Lemma objective_reports width height :
  (0 <= width)%Q →
  runs same_globals (report_unboosted width height)
    (Nevergrad.objective (drawn width height)).
Proof.
  intros Hw. unfold Nevergrad.objective.
  apply runs_bind; try exact _; [runs_tac|]. intros steps.
  apply runs_bind; try exact _; [runs_tac|]. intros n.
  unfold for_range. apply runs_for_each; try exact _. intros step Hstep.
  assert (0 <= step)%Z as Hs.
  { apply in_map_iff in Hstep as (i & <- & _). lia. }
  intros w s. rewrite (objective_step _ _ _ _ _ Hs Hw).
  assert (runs same_globals (report_unboosted width height)
            (sleep 0.1 ;;;
             _ <- effect (report_score step (unboosted step width height))
                    (ExternalError (VExt "ray.air.session.report"))
                    (VRet (VExt "ray.air.session.report")
                       [VDict [("iterations", VInt step);
                               ("mean_loss",
                                VNum (unboosted step width height))]] []) ;;
             ret tt)) as Hr.
  { apply runs_bind; try exact _; [runs_tac|]. intros _.
    apply runs_bind; try exact _; [|runs_tac].
    apply runs_effect; try exact _; try done.
    simpl. apply Qeq_bool_iff. reflexivity. }
  apply (Hr w s).
Qed.

Lemma sampled_drawn config :
  sampled search_config config →
  ∃ width height, config = drawn width height ∧ (0 <= width)%Q.
Proof.
  unfold sampled, search_config. intros H.
  apply Forall2_cons_inv_l in H as ([k1 v1] & l1 & [Hk1 Hd1] & H & ->).
  apply Forall2_cons_inv_l in H as ([k2 v2] & l2 & [Hk2 Hd2] & H & ->).
  apply Forall2_cons_inv_l in H as ([k3 v3] & l3 & [Hk3 Hd3] & H & ->).
  apply Forall2_cons_inv_l in H as ([k4 v4] & l4 & [Hk4 Hd4] & H & ->).
  apply Forall2_nil_inv_l in H as ->.
  simpl in Hk1, Hk2, Hk3, Hk4. subst.
  cbv [in_domain snd String.eqb Ascii.eqb Bool.eqb num_of] in Hd1, Hd2, Hd3, Hd4.
  subst v1. destruct v2; try done. destruct v3; try done.
  destruct Hd4 as [<-|[]]. destruct Hd2 as [Hw _].
  by eexists _, _.
Qed.

(** C6. In the Nevergrad notebook [search_config] gives activation the
    single choice "relu, tanh".  So a configuration sampled from it has
    that activation, which differs from "relu": evaluate adds the boost 1
    and returns (0.1 + width * step / 100)^(-1) + height * 0.1 + 1 at every
    step, and every score [objective] reports is that one; the relu branch
    is not taken. *)
Theorem relu_branch_unreachable (config : list (string * Value)) :
  sampled search_config config →
  ns (calm_run Nevergrad.notebook) !! "search_config"
    = Some (VDict search_config) ∧
  ∃ width height,
    config = drawn width height ∧
    kw_lookup "activation" config = Some (VStr "relu, tanh") ∧
    eq_str (VStr "relu, tanh") "relu" = false ∧
    (∀ (step : nat) w s,
       Nevergrad.evaluate (Z.of_nat step) width height (VStr "relu, tanh") w s
       = (Ok (unboosted (Z.of_nat step) width height), emit (ESleep 0.1) s)) ∧
    runs same_globals (report_unboosted width height)
      (Nevergrad.objective config).
Proof.
  intros (width & height & -> & Hw)%sampled_drawn.
  split; [vm_compute; reflexivity|].
  exists width, height. do 3 (split; [reflexivity|]). split.
  - intros step w s. rewrite nevergrad_evaluate_eq; [done|lia|done].
  - by apply objective_reports.
Qed.

Lemma relu_branch_unreachable_witness :
  sampled search_config (drawn 5 2) ∧
  ∃ width height,
    drawn 5 2 = drawn width height ∧
    kw_lookup "activation" (drawn 5 2) = Some (VStr "relu, tanh") ∧
    eq_str (VStr "relu, tanh") "relu" = false ∧
    (∀ (step : nat) w s,
       Nevergrad.evaluate (Z.of_nat step) width height (VStr "relu, tanh") w s
       = (Ok (unboosted (Z.of_nat step) width height), emit (ESleep 0.1) s)) ∧
    runs same_globals (report_unboosted width height)
      (Nevergrad.objective (drawn 5 2)).
Proof.
  assert (sampled search_config (drawn 5 2)) as H.
  { repeat constructor; simpl; discriminate || reflexivity. }
  split; [exact H|]. exact (proj2 (relu_branch_unreachable (drawn 5 2) H)).
Defined.

(** A run of [objective] on a drawn configuration reports 100 scores. *)
Example objective_reports_100_scores :
  reports (trace (Nevergrad.objective (drawn 5 2) (calm ∅ 0)
                    (init (calm ∅ 0))).2) = 100%nat.
Proof. vm_compute. reflexivity. Qed.

(** C8. On its search domain the evaluate function of the tuning notebooks
    is total: for every step >= 0 and width >= 0, and any height and
    activation, the base 0.1 + width * step / 100 is at least 0.1, hence
    not zero, and evaluate returns its score; it does not divide by
    zero. *)
Theorem evaluate_never_divides_by_zero (step : Z) (width height : Q)
    (activation : Value) (w : World) (s : State) :
  (0 <= step)%Z → (0 <= width)%Q →
  (0.1 <= base step width)%Q ∧
  Qeq_bool (base step width) 0 = false ∧
  Nevergrad.evaluate step width height activation w s
    = (Ok (base step width ^ (-1) + height * 0.1
           + (if eq_str activation "relu" then 10 else 1))%Q,
       emit (ESleep 0.1) s) ∧
  SigOpt.evaluate step width height activation w s
    = (Ok (base step width ^ (-1) + height * 0.1
           + (if eq_str activation "relu" then 10 else 1))%Q,
       emit (ESleep 0.1) s) ∧
  BayesOpt.evaluate step width height w s
    = (Ok (base step width ^ (-1) + height * 0.1)%Q, emit (ESleep 0.1) s).
Proof.
  intros Hs Hw.
  split; [by apply base_lower|]. split; [by apply base_nonzero|].
  split; [by apply nevergrad_evaluate_eq|].
  split; [by apply sigopt_evaluate_eq|by apply bayesopt_evaluate_eq].
Qed.

Lemma evaluate_never_divides_by_zero_witness :
  (0 <= 3)%Z ∧ (0 <= 2)%Q ∧
  BayesOpt.evaluate 3 2 1 (calm ∅ 0) (init (calm ∅ 0))
    = (Ok (base 3 2 ^ (-1) + 1 * 0.1)%Q, emit (ESleep 0.1) (init (calm ∅ 0))).
Proof.
  assert (0 <= 3)%Z as Hs by lia.
  assert (0 <= 2)%Q as Hw by discriminate.
  split; [exact Hs|]. split; [exact Hw|].
  exact (proj2 (proj2 (proj2 (proj2
    (evaluate_never_divides_by_zero 3 2 1 VNone (calm ∅ 0) (init (calm ∅ 0))
       Hs Hw))))).
Defined.

(** * Further properties *)

(** ** The functions of the tuning notebooks *)















Lemma getitem_some config k v w s :
  kw_lookup k config = Some v → getitem config k w s = (Ok v, s).
Proof. intros H. unfold getitem. by rewrite H. Qed.

Lemma getitem_none config k w s :
  kw_lookup k config = None → getitem config k w s = key_error k s.
Proof. intros H. unfold getitem. by rewrite H. Qed.




(** X4. The edge cases of objective, in the three tuning notebooks: a
    configuration without steps ends in KeyError for steps; with steps <= 0
    it returns at once, whatever else the configuration holds or lacks;
    with steps > 0 and a key of the loop body missing (width, height,
    activation, in the order they are read) it ends in KeyError for the
    first missing key, before any sleep or report. *)
Theorem objective_edge_cases (config : list (string * Value)) (w : World)
    (s : State) :
  edge_behaviour ["width"; "height"; "activation"] Nevergrad.objective
    config w s ∧
  edge_behaviour ["width"; "height"; "activation"] SigOpt.objective
    config w s ∧
  edge_behaviour ["width"; "height"] BayesOpt.objective config w s.
Proof.
  unfold edge_behaviour, missing.
  destruct (kw_lookup "steps" config) as [v|] eqn:Hn.
  - destruct v as [ | |n| | | | | | | | | | | | | ]; try done.
    destruct (Z.leb_spec n 0) as [Hle|Hlt].
    + unfold Nevergrad.objective, SigOpt.objective, BayesOpt.objective,
        bind, for_range.
      rewrite (getitem_some _ _ _ _ _ Hn). unfold as_int, ret.
      cbv beta iota. replace (Z.to_nat n) with 0%nat by lia. done.
    + unfold Nevergrad.objective, SigOpt.objective, BayesOpt.objective,
        for_range.
      destruct (Z.to_nat n) as [|m] eqn:Hm; [lia|].
      unfold bind.
      rewrite (getitem_some _ _ _ _ _ Hn). unfold as_int, ret. cbv beta iota.
      rewrite Hm.
      cbn [seq map for_each List.find]. unfold bind.
      destruct (kw_lookup "width" config) as [wv|] eqn:Hw.
      2:{ by rewrite !(getitem_none _ _ _ _ Hw). }
      destruct (kw_lookup "height" config) as [hv|] eqn:Hh.
      2:{ by rewrite !(getitem_some _ _ _ _ _ Hw), !(getitem_none _ _ _ _ Hh). }
      split; [|split]; [| |done].
      all: destruct (kw_lookup "activation" config) as [av|] eqn:Ha; [done|].
      all: by rewrite (getitem_some _ _ _ _ _ Hw), (getitem_some _ _ _ _ _ Hh),
             (getitem_none _ _ _ _ Ha).
  - unfold Nevergrad.objective, SigOpt.objective, BayesOpt.objective, bind.
    by rewrite !(getitem_none _ _ _ _ Hn).
Qed.

(** ** The functions of the multi-objective sections *)



Lemma apply_method_calm v m env k s :
  apply (VAttr v m) [] [] (calm env k) s
  = (Ok (returned (VAttr v m) [] []), emit (ECall (VAttr v m) [] []) s).
Proof. done. Qed.









(** ** The trainer of the data notebook *)

Lemma for_each_pass {A} (l : list A) w s :
  for_each l (fun _ => pass) w s = (Ok tt, s).
Proof. induction l as [|a l IH]; simpl; [done|]. unfold bind. simpl. apply IH. Qed.

(** X7. The method train of the actor class Trainer asks its shard for
    batches of 256 rows, iterates over all of them without doing anything
    with a batch, and returns what count of the shard returns: its events
    and its result do not depend on the number of batches, and it ends
    without an error of its own whatever the libraries do. *)
Theorem train_returns_row_count (shard : Value) (s : State) :
  (∀ w, only_library_errors (NycTaxi.Trainer.train shard w s).1 = true) ∧
  ∀ env k,
    NycTaxi.Trainer.train shard (calm env k) s
    = (Ok (VRet (VAttr shard "count") [] []), extend (train_events shard) s).
Proof.
  split.
  - intros w. unfold NycTaxi.Trainer.train, bind, apply, items, effect,
      iter_count, bind. simpl.
    destruct (raises w _); simpl; [done|].
    destruct (raises w _); simpl; [done|].
    rewrite for_each_pass.
    by destruct (raises w _).
  - intros env k. unfold NycTaxi.Trainer.train, bind.
    rewrite apply_method_calm || (unfold apply; simpl).
    unfold items, returned, bind, iter_count, effect. simpl.
    rewrite for_each_pass. unfold extend, emit. simpl.
    by rewrite <- !app_assoc.
Qed.

(** ** Running a notebook from top to bottom *)

(** Symbolic execution from a known state: the state reached is named,
    and a name is looked up by computation. *)
Ltac lookup_now s x :=
  let r := eval vm_compute in (ns s !! x) in
  let E := fresh "E" in
  assert (ns s !! x = r) as E by (vm_compute; reflexivity);
  rewrite E; clear E; cbv beta iota.

Ltac run_step :=
  lazymatch goal with
  | |- wp _ _ ?s _ =>
      first [ is_var s | let s' := fresh "s" in set (s' := s) ]
  | |- _ => idtac
  end;
  lazymatch goal with
  | |- wp (name ?x) _ ?s _ => apply wp_name; lookup_now s x
  | |- wp (del ?x) _ ?s _ => apply wp_del; lookup_now s x
  | |- _ => wp_step I
  end.

Ltac stopped :=
  cbv beta iota zeta;
  first [ exact I | split; [ reflexivity | eexists; eassumption ] ].

(** X8. Run from top to bottom, the Nevergrad and the BayesOpt notebooks
    stop early only when a library call raises, with the error of that
    call: every name a cell reads was bound by an earlier cell, so no cell
    fails on its own, and when no library call raises both notebooks run
    to their end. *)
Theorem tuning_notebooks_stop_only_in_libraries (w : World) :
  stops_in_library w (run_all Nevergrad.notebook w (init w)).1 ∧
  stops_in_library w (run_all BayesOpt.notebook w (init w)).1.
Proof.
  split.
  - change (wp (run_all Nevergrad.notebook) w (init w)
              (fun o _ => stops_in_library w o)).
    unfold Nevergrad.notebook. cbn [run_all].
    repeat run_step; stopped.
  - change (wp (run_all BayesOpt.notebook) w (init w)
              (fun o _ => stops_in_library w o)).
    unfold BayesOpt.notebook. cbn [run_all].
    repeat run_step; stopped.
Qed.

(** X9. Run from top to bottom, the data notebook stops early only when a
    library call raises, with the error of that call: every name a cell
    reads or deletes was bound by an earlier cell and the pairs of trainers
    and shards unpack, so no cell fails on its own, and when no library
    call raises the notebook runs to its end. *)
Theorem data_notebook_stops_only_in_libraries (w : World) :
  stops_in_library w (run_all NycTaxi.notebook w (init w)).1.
Proof.
  change (wp (run_all NycTaxi.notebook) w (init w)
            (fun o _ => stops_in_library w o)).
  unfold NycTaxi.notebook. cbn [run_all].
  repeat run_step; stopped.
Qed.

(** X10. Run from top to bottom, the SigOpt notebook never reaches its end.
    It stops at the key check with ValueError when SIGOPT_KEY is not set,
    before any experiment; or in a library call that raises; or, when the
    key is set and no call raises, at the unbound name Connection after
    exactly two experiments: the experiment of the section on prior
    beliefs is never run. *)
Theorem sigopt_notebook_never_completes (w : World) :
  sigopt_stop w (run_all SigOpt.notebook w (init w)).1
    (run_all SigOpt.notebook w (init w)).2.
Proof.
  change (wp (run_all SigOpt.notebook) w (init w) (sigopt_stop w)).
  unfold SigOpt.notebook, SigOpt.before_prior. cbn [app run_all].
  repeat run_step.
  all: cbv beta iota zeta.
  all: repeat match goal with
       | H : bool_decide (is_Some (environ ?s !! _)) = _ |- _ =>
           change (environ s) with (env0 w) in H;
           first [ apply bool_decide_eq_true in H
                 | apply bool_decide_eq_false in H;
                   apply eq_None_not_Some in H ]
       end.
  all: first
    [ left; split; [reflexivity|split; [assumption|vm_compute; reflexivity]]
    | right; left;
      split; [reflexivity|split; [eexists; eassumption|vm_compute; lia]]
    | right; right;
      split; [reflexivity|split; [assumption|vm_compute; reflexivity]] ].
Qed.

(** ** What the cells leave unchanged *)

#[export] Instance same_environ_frame : Frame same_environ.
Proof.
  split; [by intros s|..|by intros e s].
  unfold same_environ. intros s1 s2 s3 H1 H2. congruence.
Qed.

#[export] Instance warnings_ignored_frame : Frame warnings_ignored.
Proof.
  split; [by left|..|by left].
  unfold warnings_ignored. intros s1 s2 s3 [H1|H1] [H2|H2]; rewrite H2, H1.
  - by left.
  - by right.
  - by right.
  - right. by rewrite insert_insert_eq.
Qed.

#[export] Instance stays_unbound_frame x : Frame (stays_unbound x).
Proof.
  split; unfold stays_unbound.
  - by intros s H.
  - intros s1 s2 s3 H1 H2 H. by apply H2, H1.
  - by intros e s H.
Qed.

(** A relation every cell keeps relates the first state of a run to its
    last. *)
Lemma run_cells_frame R `{!Frame R} P cells w s :
  Forall (runs R P) cells → R s (run_cells cells w s).
Proof.
  intros H. revert s. induction H as [|c cs Hc _ IH]; intros s; simpl.
  - apply frame_refl.
  - eapply frame_trans; [apply (Hc w s)|apply IH].
Qed.

Lemma unbound_set_name x y v s :
  x ≠ y → stays_unbound x s (set_name y v s).
Proof. intros Hne H. simpl. by rewrite lookup_insert_ne. Qed.

Lemma unbound_unset_name x y s : stays_unbound x s (unset_name y s).
Proof.
  intros H. simpl. rewrite lookup_delete. by case_decide.
Qed.

(** An item assignment with a literal key and a literal value. *)
Lemma runs_setitem_str R `{!Frame R} P (ec : M Value) k v :
  runs R P ec →
  (∀ s, R s (set_env k v s)) →
  (∀ c, P (ECall (VAttr c "__setitem__") [VStr k; VStr v] []) = true) →
  (∀ c, P (ERaise (ExternalError (VAttr c "__setitem__"))) = true) →
  runs R P (setitem ec (str k) (str v)).
Proof.
  intros Hc Hset Hcall Hraise.
  change (runs R P
            (c <- ec ;;
             if is_environ c then env_set k v
             else expr (apply (VAttr c "__setitem__") [VStr k; VStr v] []))).
  apply runs_bind; try exact _; [done|]. intros c.
  destruct (is_environ c); [by apply runs_env_set|].
  unfold expr. apply runs_bind; try exact _; [by apply runs_apply|].
  intros _. by apply runs_ret.
Qed.

(** The tactics of [runs], for these relations. *)
Ltac frame_side :=
  lazymatch goal with
  | |- Frame _ => exact _
  | |- _ =>
      first [ reflexivity | intros; reflexivity | intros; exact I
            | intros; apply unbound_set_name; discriminate
            | intros; apply unbound_unset_name
            | intros; hnf; by auto ]
  end.

Ltac frame_step :=
  lazymatch goal with
  | |- Frame _ => exact _
  | |- ∀ _, _ => intros ?
  | |- runs _ _ (bind _ _) => apply runs_bind
  | |- runs _ _ (ret _) => apply runs_ret
  | |- runs _ _ (throw _) => apply runs_throw; frame_side
  | |- runs _ _ (name _) => apply runs_name; frame_side
  | |- runs _ _ (store _ _) => apply runs_store; frame_side
  | |- runs _ _ (del _) => apply runs_del; frame_side
  | |- runs _ _ (shell _) => apply runs_shell; frame_side
  | |- runs _ _ (env_has _) => apply runs_env_has
  | |- runs _ _ (env_get _) => apply runs_env_get; frame_side
  | |- runs _ _ (env_set _ _) => apply runs_env_set; frame_side
  | |- runs _ _ (setitem _ (str _) (str _)) =>
      apply runs_setitem_str; [ exact _ | | frame_side .. ]
  | |- runs _ _ (effect _ _ _) => apply runs_effect; frame_side
  | |- runs _ _ (apply _ _ _) => apply runs_apply; frame_side
  | |- runs _ _ (operate _ _ _) => apply runs_operate; frame_side
  | |- runs _ _ (items _) => apply runs_items; frame_side
  | |- runs _ _ (unpack2 _) => apply runs_unpack2; frame_side
  | |- runs _ _ (sequence (map _ _)) =>
      apply runs_sequence; [ | apply Forall_map_intro ]
  | |- runs _ _ (sequence _) => apply runs_sequence
  | |- runs _ _ (sequence_kw _) => apply runs_sequence_kw
  | |- Forall _ [] => constructor
  | |- Forall _ (_ :: _) => constructor; [ cbn [snd] | ]
  | |- runs _ _ (match ?v with _ => _ end) => destruct v
  | |- runs _ _ ?m => let h := head_of m in unfold h
  end.

Ltac frame_cells :=
  repeat (constructor; [ repeat frame_step | ]); try constructor.

Lemma tuning_cells_keep_environ :
  Forall (runs same_environ everything)
    (Nevergrad.notebook ++ SigOpt.notebook ++ BayesOpt.notebook).
Proof.
  unfold Nevergrad.notebook, SigOpt.notebook, SigOpt.before_prior,
    BayesOpt.notebook.
  cbn [app]. frame_cells.
Qed.

Lemma data_cells_keep_environ :
  Forall (runs warnings_ignored everything) NycTaxi.notebook.
Proof. unfold NycTaxi.notebook. frame_cells. Qed.

(** X11. However far the cells are run and whatever the libraries do, no
    statement of the three tuning notebooks writes an environment variable
    (SIGOPT_KEY is only read), and the only one the data notebook writes
    is PYTHONWARNINGS, which it sets to ignore: the environment a run
    leaves is the one it found, but for that variable. *)
Theorem notebooks_leave_environment_alone (w : World) (n : nat) :
  environ (run_cells (take n Nevergrad.notebook) w (init w)) = env0 w ∧
  environ (run_cells (take n SigOpt.notebook) w (init w)) = env0 w ∧
  environ (run_cells (take n BayesOpt.notebook) w (init w)) = env0 w ∧
  (environ (run_cells (take n NycTaxi.notebook) w (init w)) = env0 w ∨
   environ (run_cells (take n NycTaxi.notebook) w (init w))
   = <["PYTHONWARNINGS" := "ignore"]> (env0 w)).
Proof.
  pose proof tuning_cells_keep_environ as H.
  apply Forall_app in H as [Hn H]. apply Forall_app in H as [Hs Hb].
  split; [|split; [|split]].
  - apply (run_cells_frame same_environ everything _ w (init w)).
    by apply Forall_take.
  - apply (run_cells_frame same_environ everything _ w (init w)).
    by apply Forall_take.
  - apply (run_cells_frame same_environ everything _ w (init w)).
    by apply Forall_take.
  - apply (run_cells_frame warnings_ignored everything _ w (init w)).
    apply Forall_take, data_cells_keep_environ.
Qed.

Lemma del_unbinds x w s : ns (del x w s).2 !! x = None.
Proof.
  unfold del. destruct (ns s !! x) eqn:E; simpl; [|done].
  apply lookup_delete_eq.
Qed.

(** After the cell [del x] a name no later cell binds is unbound,
    however far the run goes. *)
Lemma unbound_after (x : string) (k : nat) (cells : list Cell) w n :
  cells !! k = Some (del x) →
  Forall (runs (stays_unbound x) everything) (drop (S k) cells) →
  ns (run_cells (take (S k + n) cells) w (init w)) !! x = None.
Proof.
  intros Hk Hrest.
  rewrite <- (take_drop (S k) cells) at 1.
  rewrite take_app_add'.
  2:{ rewrite length_take. symmetry. apply Nat.min_l.
      by apply lookup_lt_Some in Hk. }
  assert (take (S k) cells = take k cells ++ [del x]) as ->
    by (by apply take_S_r).
  rewrite <- app_assoc, !run_cells_app.
  apply (run_cells_frame (stays_unbound x) everything); [by apply Forall_take|].
  simpl. apply del_unbinds.
Qed.

(** X12. In the data notebook, once the cell that deletes year_ds (the
    12th), pushdown_ds (the 20th) or trainers (the 26th) has been run, the
    name is unbound and stays unbound in every later cell, whatever the
    libraries did before: also when the deletion itself failed because the
    name was never bound. *)
Theorem data_notebook_releases_names (w : World) (n : nat) :
  ns (run_cells (take (12 + n) NycTaxi.notebook) w (init w)) !! "year_ds"
    = None ∧
  ns (run_cells (take (20 + n) NycTaxi.notebook) w (init w)) !! "pushdown_ds"
    = None ∧
  ns (run_cells (take (26 + n) NycTaxi.notebook) w (init w)) !! "trainers"
    = None.
Proof.
  split; [|split].
  - apply (unbound_after "year_ds" 11); [done|].
    unfold NycTaxi.notebook. cbn [drop]. frame_cells.
  - apply (unbound_after "pushdown_ds" 19); [done|].
    unfold NycTaxi.notebook. cbn [drop]. frame_cells.
  - apply (unbound_after "trainers" 25); [done|].
    unfold NycTaxi.notebook. cbn [drop]. frame_cells.
Qed.

(** ** What the experiments are given *)

(** An invariant [A] up to a cell that establishes [B], kept from there
    on. *)
Lemma two_phases (A B : State → Prop) (pre post : list Cell) (c : Cell) w n :
  Forall (preserves A) pre → (∀ w s, A s → B (c w s).2) →
  Forall (preserves B) post → A (init w) →
  A (run_cells (take n (pre ++ c :: post)) w (init w)) ∨
  B (run_cells (take n (pre ++ c :: post)) w (init w)).
Proof.
  intros Hpre Hc Hpost Hinit.
  destruct (decide (n ≤ length pre)%nat) as [Hn|Hn].
  - left. rewrite take_app_le by done.
    apply run_cells_preserves; [by apply Forall_take|done].
  - right.
    replace n with (length pre + S (n - length pre - 1)) by lia.
    rewrite take_app_add' by done. cbn [take].
    rewrite run_cells_app. simpl.
    apply run_cells_preserves; [by apply Forall_take|].
    apply Hc. by apply run_cells_preserves.
Qed.

Lemma no_experiment_ok defs e :
  no_experiment e = true → experiment_ok defs e = true.
Proof.
  destruct e as [| |f args kw| | |]; simpl; try done.
  by destruct (is_ext f "ray.tune.run").
Qed.

Lemma good_switch (allowed allowed' : string → Value → Prop) ev ev' x v s :
  (∀ y u, y ≠ x → allowed y u → allowed' y u) → allowed' x v →
  (∀ e, ev e = true → ev' e = true) →
  good allowed ev s → good allowed' ev' (set_name x v s).
Proof.
  intros Hal Hv Hev [H1 H2]. split.
  - intros y u. simpl. rewrite lookup_insert. case_decide.
    + intros [= <-]. by subst.
    + intros Hy. apply Hal; [done|]. by apply H1.
  - simpl. rewrite forallb_forall in *. intros e He. by apply Hev, H2.
Qed.

(** The two tables of a notebook agree on every name but [num_samples]. *)
Ltac same_names :=
  let y := fresh "y" in let u := fresh "u" in let Hy := fresh "Hy" in
  intros y u Hy; unfold names_nevergrad, names_bayesopt, names_sigopt, table;
  cbn [List.find fst];
  repeat
    lazymatch goal with
    | |- match (if String.eqb ?k y then _ else _) with _ => _ end → _ =>
        let E := fresh "E" in
        destruct (String.eqb k y) eqn:E;
        [ first [ exact (fun H => H)
                | apply String.eqb_eq in E; symmetry in E; destruct (Hy E) ]
        | ]
    end;
  exact (fun H => H).

Ltac switch_samples :=
  let w := fresh "w" in let s := fresh "s" in let Hg := fresh "Hg" in
  intros w s Hg; cbv beta;
  lazymatch goal with
  | Hg' : good ?a0 _ _ |- good ?a ?e _ =>
      change (good a e (set_name "num_samples" (VInt 10) s));
      apply (good_switch a0 a no_experiment e "num_samples" (VInt 10) s)
  end;
  [ same_names | reflexivity | apply no_experiment_ok | exact Hg ].

(** Up to the cell that sets [num_samples] to 10 no experiment is run;
    from there on every experiment is given 10 samples and a function of
    the notebook. *)
Lemma nevergrad_phases w n :
  let s := run_cells (take n Nevergrad.notebook) w (init w) in
  good (names_nevergrad any) no_experiment s ∨
  good (names_nevergrad ten) (experiment_ok [("c71fc423", "objective")]) s.
Proof.
  apply (two_phases _ _ (take 7 Nevergrad.notebook)
           (drop 8 Nevergrad.notebook) Nevergrad.cell_191c7f89).
  - unfold Nevergrad.notebook. cbn [take]. cells_proof ok_tac allowed_tac.
  - switch_samples.
  - unfold Nevergrad.notebook. cbn [drop]. cells_proof ok_tac allowed_tac.
  - apply good_init.
Qed.

Lemma bayesopt_phases w n :
  let s := run_cells (take n BayesOpt.notebook) w (init w) in
  good (names_bayesopt any) no_experiment s ∨
  good (names_bayesopt ten) (experiment_ok [("e9adf637", "objective")]) s.
Proof.
  apply (two_phases _ _ (take 7 BayesOpt.notebook)
           (drop 8 BayesOpt.notebook) BayesOpt.cell_bb5f39a6).
  - unfold BayesOpt.notebook. cbn [take]. cells_proof ok_tac allowed_tac.
  - switch_samples.
  - unfold BayesOpt.notebook. cbn [drop]. cells_proof ok_tac allowed_tac.
  - apply good_init.
Qed.

Lemma sigopt_phases w n :
  let s := run_cells (take n SigOpt.notebook) w (init w) in
  good (names_sigopt any) no_experiment s ∨
  good (names_sigopt ten)
    (experiment_ok [("7284f24a", "objective"); ("8e13db27", "multi_objective")])
    s.
Proof.
  apply (two_phases _ _ (take 8 SigOpt.notebook)
           (drop 9 SigOpt.notebook) SigOpt.cell_38991a3c).
  - unfold SigOpt.notebook, SigOpt.before_prior. cbn [app take].
    cells_proof ok_tac allowed_tac.
  - switch_samples.
  - unfold SigOpt.notebook, SigOpt.before_prior. cbn [app drop].
    cells_proof ok_tac allowed_tac.
  - apply good_init.
Qed.

Lemma no_experiment_nil t :
  forallb no_experiment t = true → trainables t = [] ∧ sample_counts t = [].
Proof.
  induction t as [|e t IH]; simpl; [done|].
  intros [He Ht]%andb_prop. destruct (IH Ht) as [-> ->].
  destruct e as [| |f args kw| | |]; simpl in *; try done.
  by destruct (is_ext f "ray.tune.run").
Qed.

Lemma is_def_eq v cell x : is_def v cell x = true → v = VDef cell x.
Proof.
  destruct v; simpl; try done.
  intros [->%String.eqb_eq ->%String.eqb_eq]%andb_prop. done.
Qed.

Lemma is_int_eq v n : is_int v n = true → v = VInt n.
Proof. destruct v; simpl; try done. by intros ->%Z.eqb_eq. Qed.

Lemma experiment_ok_given defs t :
  forallb (experiment_ok defs) t = true →
  Forall (given defs) (trainables t) ∧
  Forall (eq (Some (VInt 10))) (sample_counts t).
Proof.
  induction t as [|e t IH]; simpl; [done|].
  intros [He Ht]%andb_prop. destruct (IH Ht) as [IH1 IH2].
  destruct e as [| |f args kw| | |]; simpl in *; try done.
  destruct (is_ext f "ray.tune.run"); simpl; [|done].
  apply andb_prop in He as [Hg Hs]. split; constructor; try done.
  - destruct args as [|g [|]]; try done.
    apply existsb_exists in Hg as (d & Hd & Hg%is_def_eq).
    exists d. by subst.
  - destruct (kw_lookup "num_samples" kw) as [v|]; [|done].
    by apply is_int_eq in Hs as ->.
Qed.

Lemma experiments_given (allowed allowed' : string → Value → Prop) defs s :
  good allowed no_experiment s ∨ good allowed' (experiment_ok defs) s →
  Forall (given defs) (trainables (trace s)) ∧
  Forall (eq (Some (VInt 10))) (sample_counts (trace s)).
Proof.
  intros [[_ H]|[_ H]].
  - destruct (no_experiment_nil _ H) as [-> ->]. by split.
  - by apply experiment_ok_given.
Qed.

(** X13. However far the cells are run and whatever the libraries do, every
    call of tune.run in the three tuning notebooks is given
    num_samples = 10: the value 1000 the Nevergrad and BayesOpt notebooks
    assign first is overridden before the first experiment, and the last
    experiment of the SigOpt notebook receives 10 through samples. *)
Theorem experiments_take_ten_samples (w : World) (n : nat) :
  Forall (eq (Some (VInt 10)))
    (sample_counts (trace (run_cells (take n Nevergrad.notebook) w (init w)))) ∧
  Forall (eq (Some (VInt 10)))
    (sample_counts (trace (run_cells (take n SigOpt.notebook) w (init w)))) ∧
  Forall (eq (Some (VInt 10)))
    (sample_counts (trace (run_cells (take n BayesOpt.notebook) w (init w)))).
Proof.
  split; [|split].
  - apply (experiments_given _ _ _ _ (nevergrad_phases w n)).
  - apply (experiments_given _ _ _ _ (sigopt_phases w n)).
  - apply (experiments_given _ _ _ _ (bayesopt_phases w n)).
Qed.

(** X14. However far the cells are run and whatever the libraries do, every
    call of tune.run is given one function the notebook defines: objective
    in the Nevergrad and BayesOpt notebooks, objective or multi_objective
    in the SigOpt notebook.  The function multi_objective_two is defined
    but never given to tune.run: when the cells are run one by one, the
    three experiments of the SigOpt notebook are given objective,
    multi_objective and objective again. *)
Theorem experiments_run_the_objectives (w : World) (n : nat) :
  Forall (given [("c71fc423", "objective")])
    (trainables (trace (run_cells (take n Nevergrad.notebook) w (init w)))) ∧
  Forall (given [("7284f24a", "objective"); ("8e13db27", "multi_objective")])
    (trainables (trace (run_cells (take n SigOpt.notebook) w (init w)))) ∧
  Forall (given [("e9adf637", "objective")])
    (trainables (trace (run_cells (take n BayesOpt.notebook) w (init w)))) ∧
  trainables (trace (calm_run SigOpt.notebook))
  = [[VDef "7284f24a" "objective"]; [VDef "8e13db27" "multi_objective"];
     [VDef "7284f24a" "objective"]] ∧
  ns (calm_run SigOpt.notebook) !! "multi_objective_two"
  = Some (VDef "870dfb0d" "multi_objective_two").
Proof.
  split; [|split; [|split; [|split]]].
  - apply (experiments_given _ _ _ _ (nevergrad_phases w n)).
  - apply (experiments_given _ _ _ _ (sigopt_phases w n)).
  - apply (experiments_given _ _ _ _ (bayesopt_phases w n)).
  - vm_compute. reflexivity.
  - vm_compute. reflexivity.
Qed.

(** X15. In the SigOpt notebook objective is defined once and calls the
    global evaluate with four arguments.  Run from top to bottom without
    error, the name evaluate denotes a function of four parameters up to
    the first experiment, of two parameters once the cell of the
    multi-objective section has run, and of three parameters once the cell
    that defines multi_objective_two has run, while objective is still the
    function of the first section; with the key set and no call raising,
    the cells up to that one do run without error. *)
Theorem sigopt_rebinds_evaluate (w : World) :
  after_run_all (take 11 SigOpt.notebook) w
    (fun s =>
       ns s !! "objective" = Some (VDef "7284f24a" "objective") ∧
       takes (ns s !! "evaluate") 4 = true) ∧
  after_run_all (take 15 SigOpt.notebook) w
    (fun s =>
       ns s !! "objective" = Some (VDef "7284f24a" "objective") ∧
       takes (ns s !! "evaluate") 4 = false ∧
       takes (ns s !! "evaluate") 2 = true) ∧
  after_run_all (take 16 SigOpt.notebook) w
    (fun s =>
       ns s !! "objective" = Some (VDef "7284f24a" "objective") ∧
       takes (ns s !! "evaluate") 4 = false ∧
       takes (ns s !! "evaluate") 3 = true) ∧
  (run_all (take 16 SigOpt.notebook) (calm token_env 0)
     (init (calm token_env 0))).1 = Ok tt.
Proof.
  assert (∀ cells Q,
    wp (run_all cells) w (init w)
      (fun o s => match o with Ok _ => Q s | Raise _ => True end) →
    after_run_all cells w Q) as Hwp.
  { intros cells Q. unfold wp, after_run_all.
    by destruct (run_all cells w (init w)) as [[u|e] s]. }
  split; [|split; [|split]]; [| | |vm_compute; reflexivity].
  all: apply Hwp.
  all: unfold SigOpt.notebook, SigOpt.before_prior; cbn [app take run_all].
  all: repeat run_step; cbv beta iota zeta; try exact I.
  all: repeat split; vm_compute; reflexivity.
Qed.
